(** * Earthquake scripts: the strongest event of a USGS query

    A shallow embedding of the two scripts of the repository,
    [earthquake_analysis.py] (module [Analysis], the defensively coded
    variant) and [earthquakes_completed.py] (module [Completed]), and the
    properties of their accessors, of the maximum scan and of the report.

    Python values are the values [json.loads] builds, plus tuples and
    [datetime] objects.  A number is the rational it denotes: [int] and
    finite [float] agree with it on truth value, on [==] and on the
    order.  The formats [.2f] and [.4f] print a number as a [float], and
    raise on an [int] beyond the range of [float] ([in_float_range]).
    [NaN] and the infinities are outside the model, and the one
    arithmetic that rounds, the average [sum(magnitudes)/len(magnitudes)],
    is a parameter of the report, as the clock library is.
    A [dict] is an association list read at its first binding of a key
    ([json.loads] leaves one binding for a key).

    Printing is a trace of [out] items, one for a [print] call: the text
    of the call with [{}] where a value goes, and the values.  A function
    that prints returns its trace next to its result, so that what was
    printed before an exception stays. *)

From Stdlib Require Import List String ZArith QArith Qabs Bool Lia Lqa.
From Stdlib Require Import Sorting.Sorted Sorting.Permutation.
Import ListNotations.

Set Warnings "-register-all".

Local Open Scope string_scope.
Local Open Scope list_scope.

(** ** Python values and the primitives the scripts use *)

Module Py.

Inductive value : Type :=
| VNone
| VBool (b : bool)
| VNum (q : Q)
| VStr (s : string)
| VList (l : list value)
| VTuple (l : list value)
| VDict (d : list (string * value))
| VDatetime (t : Q).

Inductive exn : Type :=
| KeyError | TypeError | AttributeError | IndexError | ValueError
| JSONDecodeError | OverflowError | ConnectionError.

Inductive result (A : Type) : Type :=
| Ok (a : A)
| Raise (e : exn).
Arguments Ok {A} a.
Arguments Raise {A} e.

Definition bind {A B} (r : result A) (k : A -> result B) : result B :=
  match r with
  | Ok a => k a
  | Raise e => Raise e
  end.

Definition raises {A} (r : result A) : Prop := exists e, r = Raise e.

Definition vzero : value := VNum 0.
Definition vpair (a b : value) : value := VTuple [a; b].
Definition none_pair : value := vpair VNone VNone.

(** [d.get(k)] without a default: the first binding of [k]. *)
Fixpoint dict_get (k : string) (d : list (string * value)) : option value :=
  match d with
  | [] => None
  | (k', v) :: d' => if String.eqb k k' then Some v else dict_get k d'
  end.

(** [x.get(k, dflt)]: only a dict has the method. *)
Definition get (x : value) (k : string) (dflt : value) : result value :=
  match x with
  | VDict d => Ok (match dict_get k d with Some v => v | None => dflt end)
  | _ => Raise AttributeError
  end.

(** [x[k]] with a string key. *)
Definition getitem (x : value) (k : string) : result value :=
  match x with
  | VDict d => match dict_get k d with Some v => Ok v | None => Raise KeyError end
  | _ => Raise TypeError
  end.

(** [x[i]] with a literal index [i >= 0]. *)
Definition getindex (x : value) (i : nat) : result value :=
  match x with
  | VList l | VTuple l =>
      match nth_error l i with Some v => Ok v | None => Raise IndexError end
  | VStr s =>
      match String.get i s with
      | Some c => Ok (VStr (String c EmptyString))
      | None => Raise IndexError
      end
  | VDict _ => Raise KeyError
  | _ => Raise TypeError
  end.

Definition len (x : value) : result nat :=
  match x with
  | VList l | VTuple l => Ok (List.length l)
  | VStr s => Ok (String.length s)
  | VDict d => Ok (List.length d)
  | _ => Raise TypeError
  end.

Definition Qnonzero (q : Q) : bool := negb (Qeq_bool q 0).

(** Truth value, as [if x], [not x], [x and y], [x or y] take it. *)
Definition truthy (x : value) : bool :=
  match x with
  | VNone => false
  | VBool b => b
  | VNum q => Qnonzero q
  | VStr s => negb (String.eqb s "")
  | VList l | VTuple l => match l with [] => false | _ => true end
  | VDict d => match d with [] => false | _ => true end
  | VDatetime _ => true
  end.

Definition is_none (x : value) : bool :=
  match x with VNone => true | _ => false end.

(** The number a value is in arithmetic and comparisons ([bool] is an
    [int] in Python). *)
Definition to_num (x : value) : option Q :=
  match x with
  | VNum q => Some q
  | VBool b => Some (if b then 1 else 0)
  | _ => None
  end.

Definition Qgtb (a b : Q) : bool := negb (Qle_bool a b).

(** The numbers that convert to a [float]: every finite [float], and the
    [int]s that round to one, those below 2^1024 - 2^970 in absolute
    value; beyond, the conversion raises [OverflowError]. *)
Definition float_limit : Z := Z.shiftl 1 1024 - Z.shiftl 1 970.

Definition in_float_range (q : Q) : bool :=
  negb (Qle_bool (inject_Z float_limit) (Qabs q)).

Arguments in_float_range : simpl never.

(** [a > b].  Numbers compare by value; a number against anything else,
    or [None], a dict or a datetime against a number, is a [TypeError].
    Two strings compare by code point.  Python also orders two lists and
    two tuples; the scripts never reach that, since the right operand is
    the running maximum, which is a number (lemma
    [Ranking.scan_max_numeric]). *)
Definition gt (a b : value) : result bool :=
  match to_num a, to_num b with
  | Some x, Some y => Ok (Qgtb x y)
  | _, _ =>
      match a, b with
      | VStr s, VStr t => Ok (String.ltb t s)
      | _, _ => Raise TypeError
      end
  end.

(** ['key' in x]. *)
Definition contains (k : string) (x : value) : result bool :=
  match x with
  | VDict d => Ok (match dict_get k d with Some _ => true | None => false end)
  | VList l | VTuple l =>
      Ok (existsb (fun v => match v with VStr s => String.eqb s k | _ => false end) l)
  | VStr s => Ok (match String.index 0 k s with Some _ => true | None => false end)
  | _ => Raise TypeError
  end.

(** [for x in it]: the sequence of values the loop visits. *)
Definition iter (x : value) : result (list value) :=
  match x with
  | VList l | VTuple l => Ok l
  | VDict d => Ok (map (fun kv => VStr (fst kv)) d)
  | VStr s =>
      Ok (map (fun c => VStr (String c EmptyString)) (list_ascii_of_string s))
  | _ => Raise TypeError
  end.

(** *** Printing

    A function that prints returns what it printed next to its result. *)

Inductive out : Type :=
| Print (template : string) (args : list value).

Definition M (A : Type) : Type := (list out * result A)%type.

Definition mret {A} (a : A) : M A := ([], Ok a).

Definition mbind {A B} (m : M A) (k : A -> M B) : M B :=
  match m with
  | (o, Ok a) => let (o', r) := k a in (o ++ o', r)
  | (o, Raise e) => (o, Raise e)
  end.

Definition lift {A} (r : result A) : M A := ([], r).

Definition print (template : string) (args : list value) : M unit :=
  ([Print template args], Ok tt).

Definition trace {A} (m : M A) : list out := fst m.
Definition outcome {A} (m : M A) : result A := snd m.

Notation "'do' x <- c1 ; c2" := (mbind c1 (fun x => c2))
  (at level 61, x pattern, c1 at next level, right associativity).
Notation "c1 ;; c2" := (mbind c1 (fun _ => c2))
  (at level 61, right associativity).

Definition vnat (n : nat) : value := VNum (inject_Z (Z.of_nat n)).

Definition nl : string := String (Ascii.ascii_of_nat 10) EmptyString.

End Py.

Import Py.

(** ** earthquakes_completed.py *)

Module Completed.

(** What [requests.get] hands back: the status line and the body.  The
    body is kept as what [json.loads] makes of its text. *)
Inductive body : Type :=
| Document (v : value)
| Malformed (s : string).

Record response : Type := { status_code : Z; text : body }.

Definition json_loads (b : body) : result value :=
  match b with
  | Document v => Ok v
  | Malformed _ => Raise JSONDecodeError
  end.

(** [get_data], given the outcome of the [requests.get] call: the status
    is not looked at. *)
Definition get_data (fetched : result response) : result value :=
  bind fetched (fun response =>
  let text := text response in
  json_loads text).

Definition count_earthquakes (data : value) : result nat :=
  bind (getitem data "features") len.

Definition get_magnitude (earthquake : value) : result value :=
  bind (getitem earthquake "properties") (fun properties =>
  getitem properties "mag").

Definition get_location (earthquake : value) : result value :=
  bind (getitem earthquake "geometry") (fun geometry =>
  bind (getitem geometry "coordinates") (fun coordinates =>
  bind (getindex coordinates 1) (fun c1 =>
  bind (getindex coordinates 0) (fun c0 =>
  Ok (vpair c1 c0))))).

Record scan : Type := { max_magnitude : value; max_location : value }.

Definition scan0 : scan := {| max_magnitude := vzero; max_location := none_pair |}.

(** The body of the [for] loop. *)
Definition step (st : scan) (earthquake : value) : result scan :=
  bind (get_magnitude earthquake) (fun magnitude =>
  if truthy magnitude then
    bind (gt magnitude (max_magnitude st)) (fun larger =>
    if larger then
      bind (get_location earthquake) (fun loc =>
      Ok {| max_magnitude := magnitude; max_location := loc |})
    else Ok st)
  else Ok st).

Fixpoint loop (st : scan) (features : list value) : result scan :=
  match features with
  | [] => Ok st
  | earthquake :: rest => bind (step st earthquake) (fun st' => loop st' rest)
  end.

Definition get_maximum (data : value) : result value :=
  bind (getitem data "features") (fun features =>
  bind (iter features) (fun earthquakes =>
  bind (loop scan0 earthquakes) (fun st =>
  Ok (vpair (max_magnitude st) (max_location st))))).

(** [a, b = t], of the tuple [get_maximum] returns. *)
Definition unpack2 (t : value) : result (value * value) :=
  match t with
  | VTuple [a; b] | VList [a; b] => Ok (a, b)
  | _ => Raise ValueError
  end.

(** The program: what runs under [if __name__ == "__main__"]. *)
Definition main (fetched : result response) : M unit :=
  print "Fetching earthquake data..." [] ;;
  do data <- lift (get_data fetched) ;
  do n <- lift (count_earthquakes data) ;
  print "Loaded {} earthquake events" [vnat n] ;;
  do found <- lift (bind (get_maximum data) unpack2) ;
  let '(max_magnitude, max_location) := found in
  print "Strongest earthquake located at {} with magnitude {}"
        [max_location; max_magnitude].

End Completed.

(** ** earthquake_analysis.py *)

Module Analysis.

Definition response := Completed.response.
Definition json_loads := Completed.json_loads.

Definition count_earthquakes (data : value) : result nat :=
  if truthy data then
    bind (contains "features" data) (fun has =>
    if has then bind (getitem data "features") len else Ok 0%nat)
  else Ok 0%nat.

Definition get_magnitude (earthquake : value) : result value :=
  bind (get earthquake "properties" (VDict [])) (fun properties =>
  get properties "mag" vzero).

Definition get_location (earthquake : value) : result value :=
  bind (get earthquake "geometry" (VDict [])) (fun geometry =>
  bind (get geometry "coordinates" (VList [])) (fun coordinates =>
  bind (len coordinates) (fun n =>
  if (2 <=? n)%nat then
    bind (getindex coordinates 1) (fun c1 =>
    bind (getindex coordinates 0) (fun c0 =>
    Ok (vpair c1 c0)))
  else Ok none_pair))).

Definition get_place_name (earthquake : value) : result value :=
  bind (get earthquake "properties" (VDict [])) (fun properties =>
  get properties "place" (VStr "Unknown")).

Record scan : Type :=
  { max_magnitude : value; max_location : value; max_earthquake : value }.

Definition scan0 : scan :=
  {| max_magnitude := vzero; max_location := none_pair; max_earthquake := VNone |}.

(** The body of the [for] loop. *)
Definition step (st : scan) (earthquake : value) : result scan :=
  bind (get_magnitude earthquake) (fun magnitude =>
  if truthy magnitude then
    bind (gt magnitude (max_magnitude st)) (fun larger =>
    if larger then
      bind (get_location earthquake) (fun loc =>
      Ok {| max_magnitude := magnitude; max_location := loc;
            max_earthquake := earthquake |})
    else Ok st)
  else Ok st).

Fixpoint loop (st : scan) (features : list value) : result scan :=
  match features with
  | [] => Ok st
  | earthquake :: rest => bind (step st earthquake) (fun st' => loop st' rest)
  end.

(** The guard [not data or 'features' not in data] of [get_maximum] and
    [analyze_earthquakes]. *)
Definition no_features (data : value) : result bool :=
  if negb (truthy data) then Ok true
  else bind (contains "features" data) (fun has => Ok (negb has)).

(** The early [return] gives a pair, the final one a triple. *)
Definition get_maximum (data : value) : result value :=
  bind (no_features data) (fun empty =>
  if empty then Ok (VTuple [vzero; none_pair])
  else
    bind (getitem data "features") (fun features =>
    bind (iter features) (fun earthquakes =>
    bind (loop scan0 earthquakes) (fun st =>
    Ok (VTuple [max_magnitude st; max_location st; max_earthquake st]))))).

(** [list(x.keys())]. *)
Definition keys (x : value) : result value :=
  match x with
  | VDict d => Ok (VList (map (fun kv => VStr (fst kv)) d))
  | _ => Raise AttributeError
  end.

(** [f"{x:.2f}"] and [f"{x:.4f}"]: the value that is printed, when it has
    the format.  A number is printed as a [float]: an [int] too large to
    convert raises [OverflowError]. *)
Definition fmt_f (x : value) : result value :=
  match x with
  | VNum q => if in_float_range q then Ok x else Raise OverflowError
  | VBool _ | VDatetime _ => Ok x
  | VStr _ => Raise ValueError
  | _ => Raise TypeError
  end.

(** [a, b, c = t], of the tuple [get_maximum] returns. *)
Definition unpack3 (t : value) : result (value * value * value) :=
  match t with
  | VTuple [a; b; c] | VList [a; b; c] => Ok (a, b, c)
  | _ => Raise ValueError
  end.

(** [min(l)] and [max(l)] of a list that is not empty: the first least
    and the first greatest element. *)
Fixpoint min_from (cur : value) (l : list value) : result value :=
  match l with
  | [] => Ok cur
  | x :: l' =>
      bind (gt cur x) (fun less => min_from (if less then x else cur) l')
  end.

Fixpoint max_from (cur : value) (l : list value) : result value :=
  match l with
  | [] => Ok cur
  | x :: l' =>
      bind (gt x cur) (fun more => max_from (if more then x else cur) l')
  end.

Definition py_min (l : list value) : result value :=
  match l with
  | [] => Raise ValueError
  | x :: l' => min_from x l'
  end.

Definition py_max (l : list value) : result value :=
  match l with
  | [] => Raise ValueError
  | x :: l' => max_from x l'
  end.

(** [[get_magnitude(eq) for eq in features if get_magnitude(eq) is not None]] *)
Fixpoint magnitudes_of (features : list value) : result (list value) :=
  match features with
  | [] => Ok []
  | eq :: rest =>
      bind (get_magnitude eq) (fun cond =>
      if negb (is_none cond) then
        bind (get_magnitude eq) (fun m =>
        bind (magnitudes_of rest) (fun ms => Ok (m :: ms)))
      else magnitudes_of rest)
  end.

(** *** The sort of the report

    [sorted(features, key=lambda x: get_magnitude(x) or 0, reverse=True)]
    computes the key of every element, then orders the elements by key,
    greatest first, elements of equal key staying in their order.  The
    keys compared here are numbers: the call comes after [get_maximum]
    has compared every magnitude that is true with a number (lemma
    [Ranking.loop_ok_keys]). *)

Definition sort_key (x : value) : result value :=
  bind (get_magnitude x) (fun m => Ok (if truthy m then m else vzero)).

Fixpoint decorate (l : list value) : result (list (value * value)) :=
  match l with
  | [] => Ok []
  | x :: l' =>
      bind (sort_key x) (fun k =>
      bind (decorate l') (fun kl => Ok ((k, x) :: kl)))
  end.

Fixpoint numeric_keys (l : list (value * value)) : result (list (Q * value)) :=
  match l with
  | [] => Ok []
  | (k, x) :: l' =>
      match to_num k with
      | Some q => bind (numeric_keys l') (fun ql => Ok ((q, x) :: ql))
      | None => Raise TypeError
      end
  end.

Fixpoint insert_desc (kx : Q * value) (l : list (Q * value)) : list (Q * value) :=
  match l with
  | [] => [kx]
  | ky :: l' =>
      if Qle_bool (fst ky) (fst kx) then kx :: ky :: l'
      else ky :: insert_desc kx l'
  end.

Definition sort_desc (l : list (Q * value)) : list (Q * value) :=
  fold_right insert_desc [] l.

Definition sorted_by_magnitude (features : list value) : result (list value) :=
  bind (decorate features) (fun kl =>
  bind (numeric_keys kl) (fun ql =>
  Ok (map snd (sort_desc ql)))).

(** [sorted_earthquakes[:5]] *)
Definition top5 (features : list value) : result (list value) :=
  bind (sorted_by_magnitude features) (fun sorted_earthquakes =>
  Ok (firstn 5 sorted_earthquakes)).

(** *** The functions that read the clock library or print *)

Section Report.

(** [datetime.fromtimestamp], the library's conversion of POSIX seconds
    to local calendar time; it raises outside the range it supports. *)
Variable fromtimestamp : Q -> result value.

(** [sum(magnitudes)/len(magnitudes)], the arithmetic of the interpreter
    on [int] and [float], on the list [magnitudes] of one report: it
    rounds where the numbers of the model do not, and it raises where an
    [int] is too large for the [float] it has to become.  Its result is a
    [float], which has the [.2f] format. *)
Variable average : list value -> result value.

Definition get_time (earthquake : value) : result value :=
  bind (get earthquake "properties" (VDict [])) (fun properties =>
  bind (get properties "time" vzero) (fun time_ms =>
  if truthy time_ms then
    match to_num time_ms with
    | Some ms => fromtimestamp (ms / 1000)
    | None => Raise TypeError
    end
  else Ok VNone)).

(** [get_data], given the outcome of the [requests.get] call. *)
Definition get_data (fetched : result response) : M value :=
  print "Fetching earthquake data from USGS..." [] ;;
  do response <- lift fetched ;
  if (Completed.status_code response =? 200)%Z then
    print "Data retrieved successfully!" [] ;;
    do data <- lift (json_loads (Completed.text response)) ;
    mret data
  else
    print "Failed to retrieve data, status code: {}"
          [VNum (inject_Z (Completed.status_code response))] ;;
    mret VNone.

Definition explore_first (first_earthquake : value) : M unit :=
  print (nl ++ "Structure of first earthquake event:") [] ;;
  do ty <- lift (get first_earthquake "type" (VStr "N/A")) ;
  print "- Type: {}" [ty] ;;
  do pk <- lift (bind (get first_earthquake "properties" (VDict [])) keys) ;
  print "- Properties: {}" [pk] ;;
  do gk <- lift (bind (get first_earthquake "geometry" (VDict [])) keys) ;
  print "- Geometry: {}" [gk] ;;
  do properties <- lift (get first_earthquake "properties" (VDict [])) ;
  do geometry <- lift (get first_earthquake "geometry" (VDict [])) ;
  print (nl ++ "Detailed information of first earthquake:") [] ;;
  do mag <- lift (get properties "mag" (VStr "N/A")) ;
  print "- Magnitude: {}" [mag] ;;
  do place <- lift (get properties "place" (VStr "N/A")) ;
  print "- Place: {}" [place] ;;
  do time <- lift (get properties "time" (VStr "N/A")) ;
  print "- Time: {}" [time] ;;
  do coordinates <- lift (get geometry "coordinates" (VStr "N/A")) ;
  print "- Coordinates: {}" [coordinates].

Definition explore_data_structure (data : value) : M unit :=
  print (nl ++ "=== Data Structure Analysis ===") [] ;;
  do sections <- lift (keys data) ;
  print "Main sections in data: {}" [sections] ;;
  do has_metadata <- lift (contains "metadata" data) ;
  (if has_metadata then
     do metadata <- lift (getitem data "metadata") ;
     print "Metadata information: {}" [metadata]
   else mret tt) ;;
  do has_features <- lift (contains "features" data) ;
  if has_features then
    do n <- lift (bind (getitem data "features") len) ;
    print "Number of earthquake events: {}" [vnat n] ;;
    do n' <- lift (bind (getitem data "features") len) ;
    if (0 <? n')%nat then
      do first_earthquake <-
        lift (bind (getitem data "features") (fun fs => getindex fs 0)) ;
      explore_first first_earthquake
    else mret tt
  else mret tt.

(** One turn of the loop over [enumerate(sorted_earthquakes[:5])]. *)
Definition report_entry (i : nat) (earthquake : value) : M unit :=
  do magnitude <- lift (get_magnitude earthquake) ;
  do location <- lift (get_location earthquake) ;
  do place <- lift (get_place_name earthquake) ;
  do time <- lift (get_time earthquake) ;
  do shown <- lift (fmt_f magnitude) ;
  print "{}. Magnitude {:.2f} - {} - {}" [vnat (i + 1); shown; place; time].

Fixpoint report_entries (i : nat) (l : list value) : M unit :=
  match l with
  | [] => mret tt
  | earthquake :: rest =>
      report_entry i earthquake ;; report_entries (S i) rest
  end.

Definition report_statistics (magnitudes : list value) : M unit :=
  do lo <- lift (bind (py_min magnitudes) fmt_f) ;
  do hi <- lift (bind (py_max magnitudes) fmt_f) ;
  print "Magnitude range: {:.2f} - {:.2f}" [lo; hi] ;;
  do avg <- lift (average magnitudes) ;
  print "Average magnitude: {:.2f}" [avg].

Definition report_strongest (data max_magnitude max_location max_earthquake : value)
  : M unit :=
  print (nl ++ "=== Strongest Earthquake Information ===") [] ;;
  print "Magnitude: {}" [max_magnitude] ;;
  do lat <- lift (bind (getindex max_location 0) fmt_f) ;
  do lon <- lift (bind (getindex max_location 1) fmt_f) ;
  print "Location coordinates: Latitude {:.4f}°, Longitude {:.4f}°" [lat; lon] ;;
  do place <- lift (get_place_name max_earthquake) ;
  print "Place name: {}" [place] ;;
  do time <- lift (get_time max_earthquake) ;
  print "Time: {}" [time] ;;
  print (nl ++ "=== Top 5 Strongest Earthquakes ===") [] ;;
  do first5 <- lift (bind (getitem data "features") (fun features =>
                     bind (iter features) top5)) ;
  report_entries 0 first5.

Definition analyze_earthquakes (data : value) : M unit :=
  do empty <- lift (no_features data) ;
  if empty then print "No data available for analysis" []
  else
    print (nl ++ "=== Earthquake Data Analysis ===") [] ;;
    do total_earthquakes <- lift (count_earthquakes data) ;
    print "Total number of earthquakes: {}" [vnat total_earthquakes] ;;
    if (total_earthquakes =? 0)%nat then print "No earthquake data found" []
    else
      do magnitudes <- lift (bind (getitem data "features") (fun features =>
                             bind (iter features) magnitudes_of)) ;
      (if truthy (VList magnitudes) then report_statistics magnitudes
       else mret tt) ;;
      do found <- lift (bind (get_maximum data) unpack3) ;
      let '(max_magnitude, max_location, max_earthquake) := found in
      if truthy max_earthquake then
        report_strongest data max_magnitude max_location max_earthquake
      else mret tt.

Definition rule : string :=
  "==================================================".

Definition main (fetched : result response) : M unit :=
  print "UK Earthquake Data Analysis" [] ;;
  print rule [] ;;
  do data <- get_data fetched ;
  if is_none data then print "Unable to retrieve data, exiting program" []
  else
    explore_data_structure data ;;
    analyze_earthquakes data ;;
    print (nl ++ rule) [] ;;
    print "Final Results:" [] ;;
    do found <- lift (bind (get_maximum data) unpack3) ;
    let '(max_magnitude, max_location, max_earthquake) := found in
    if truthy max_earthquake then
      print "Strongest earthquake in the UK in the last century:" [] ;;
      print "Magnitude: {}" [max_magnitude] ;;
      do place <- lift (get_place_name max_earthquake) ;
      print "Location: {}" [place] ;;
      do lat <- lift (bind (getindex max_location 0) fmt_f) ;
      do lon <- lift (bind (getindex max_location 1) fmt_f) ;
      print "Coordinates: Latitude {:.4f}°, Longitude {:.4f}°" [lat; lon] ;;
      do time <- lift (get_time max_earthquake) ;
      print "Time: {}" [time]
    else print "No earthquake data found" [].

End Report.

End Analysis.

(** * Specification *)

(** ** The records of the data model *)

Definition lookup2 (outer inner : string) (e : value) : option value :=
  match e with
  | VDict d =>
      match dict_get outer d with
      | Some (VDict p) => dict_get inner p
      | _ => None
      end
  | _ => None
  end.

(** The magnitude a record carries, when it carries a number. *)
Definition magnitude_of (e : value) : option Q :=
  match lookup2 "properties" "mag" e with
  | Some (VNum q) => Some q
  | _ => None
  end.

(** What a [get_magnitude] with defaults reads: the binding of [mag],
    or 0 without one. *)
Definition raw_mag (e : value) : value :=
  match lookup2 "properties" "mag" e with
  | Some v => v
  | None => vzero
  end.

Definition opt_all (p : value -> bool) (o : option value) : bool :=
  match o with
  | None => true
  | Some v => p v
  end.

Definition mag_ok (v : value) : bool :=
  match v with VNone | VNum _ => true | _ => false end.

Definition is_list (v : value) : bool :=
  match v with VList _ => true | _ => false end.

Definition properties_ok (p : value) : bool :=
  match p with
  | VDict p => opt_all mag_ok (dict_get "mag" p)
  | _ => false
  end.

Definition geometry_ok (g : value) : bool :=
  match g with
  | VDict g => opt_all is_list (dict_get "coordinates" g)
  | _ => false
  end.

(** An event record with its optional fields: a dict whose [properties]
    and [geometry], when there, are dicts, whose [mag], when there, is a
    number or null, and whose [coordinates], when there, are an array. *)
Definition well_formed (e : value) : bool :=
  match e with
  | VDict d =>
      opt_all properties_ok (dict_get "properties" d)
      && opt_all geometry_ok (dict_get "geometry" d)
  | _ => false
  end.

(** A record that carries [properties.mag], whatever its value, and a
    [geometry.coordinates] array of two elements or more. *)
Definition carries_fields (e : value) : bool :=
  match lookup2 "properties" "mag" e, lookup2 "geometry" "coordinates" e with
  | Some _, Some (VList (_ :: _ :: _)) => true
  | _, _ => false
  end.

(** A record that carries every field: [properties.mag], a number or
    null, and [geometry.coordinates], an array of two elements or more. *)
Definition complete (e : value) : bool :=
  match lookup2 "properties" "mag" e, lookup2 "geometry" "coordinates" e with
  | Some m, Some (VList (_ :: _ :: _)) => mag_ok m
  | _, _ => false
  end.

(** A collection: a document whose [features] is the array [features]. *)
Definition collection (data : value) (features : list value) : Prop :=
  exists d, data = VDict d /\ dict_get "features" d = Some (VList features).

Definition missing_magnitude (e : value) : Prop :=
  lookup2 "properties" "mag" e = None \/
  lookup2 "properties" "mag" e = Some VNone.

(** ** The state of the scan *)

(** The record the scan holds is the first record of [pre] that carries
    the running maximum [c], which is above 0, and the location the scan
    holds is the location of that record. *)
Definition scan_selected (pre : list value) (st : Analysis.scan) (c : Q) : Prop :=
  exists i e,
    nth_error pre i = Some e /\
    magnitude_of e = Some c /\
    0 < c /\
    Analysis.max_earthquake st = e /\
    Analysis.get_location e = Ok (Analysis.max_location st) /\
    (forall j e' q, (j < i)%nat -> nth_error pre j = Some e' ->
                    magnitude_of e' = Some q -> q < c).

(** What holds of the scan state after the records [pre]: the running
    maximum is a number [c >= 0] that bounds every magnitude seen, and
    either nothing was selected, or the selected record is the first one
    of [pre] whose magnitude is [c]. *)
Definition scan_invariant (pre : list value) (st : Analysis.scan) : Prop :=
  exists c,
    Analysis.max_magnitude st = VNum c /\
    0 <= c /\
    (forall e q, In e pre -> magnitude_of e = Some q -> q <= c) /\
    (st = Analysis.scan0 \/ scan_selected pre st c).

(** The pair [earthquakes_completed.py] returns where
    [earthquake_analysis.py] returns the triple [r]. *)
Definition without_record (r : value) : result value :=
  match r with
  | VTuple [m; loc; _] => Ok (VTuple [m; loc])
  | _ => Raise ValueError
  end.

(** The state of the scan of [earthquakes_completed.py] in a state of the
    scan of [earthquake_analysis.py]. *)
Definition forget (st : Analysis.scan) : Completed.scan :=
  {| Completed.max_magnitude := Analysis.max_magnitude st;
     Completed.max_location := Analysis.max_location st |}.

(** ** The maximum and the first record that carries it *)

(** Record [i] of [features] carries the magnitude [m], no magnitude that
    takes part in the search (present, not 0) is above [m], and no record
    before [i] carries [m]. *)
Definition first_maximum (features : list value) (i : nat) (e : value) (m : Q)
  : Prop :=
  nth_error features i = Some e /\
  magnitude_of e = Some m /\
  (forall e' q, In e' features -> magnitude_of e' = Some q -> ~ q == 0 -> q <= m) /\
  (forall j e' q, (j < i)%nat -> nth_error features j = Some e' ->
                  magnitude_of e' = Some q -> ~ q == m).

(** [get_maximum] answers with that magnitude, that record and the
    location of that record. *)
Definition finds_maximum (data : value) (features : list value) : Prop :=
  exists i e m loc,
    Analysis.get_maximum data = Ok (VTuple [VNum m; loc; e]) /\
    first_maximum features i e m /\
    Analysis.get_location e = Ok loc /\
    (Forall (fun e => complete e = true) features ->
     Completed.get_maximum data = Ok (VTuple [VNum m; loc])).

(** The property with the magnitudes that count left open: [counts q] says
    which magnitude makes a collection one the property speaks of. *)
Definition maximum_claim (counts : Q -> Prop) : Prop :=
  forall data features,
    collection data features ->
    Forall (fun e => well_formed e = true) features ->
    Exists (fun e => exists q, magnitude_of e = Some q /\ counts q) features ->
    finds_maximum data features.

(** The property of a search that returns a magnitude and a location on
    every collection the property speaks of. *)
Definition maximum_returned (maximum : value -> result value)
  (counts : Q -> Prop) : Prop :=
  forall data features,
    collection data features ->
    Forall (fun e => well_formed e = true) features ->
    Exists (fun e => exists q, magnitude_of e = Some q /\ counts q) features ->
    exists m loc, maximum data = Ok (VTuple [VNum m; loc]).

(** ** Magnitudes that are 0 or missing *)

(** The magnitude of the record is 0, or null, or not there. *)
Definition zero_or_missing (e : value) : Prop :=
  missing_magnitude e \/ exists q, magnitude_of e = Some q /\ q == 0.

(** The property as the specification states it, of a maximum search:
    records whose magnitude is 0 or missing are passed over, so that on a
    collection of such records alone the search returns magnitude 0 and
    location (None, None), with no record or with None for it. *)
Definition passes_over_zero_or_missing (maximum : value -> result value) : Prop :=
  forall data features,
    collection data features ->
    Forall (fun e => well_formed e = true) features ->
    Forall zero_or_missing features ->
    maximum data = Ok (VTuple [vzero; none_pair]) \/
    maximum data = Ok (VTuple [vzero; none_pair; VNone]).

(** ** The magnitudes of the statistics *)

(** The list [magnitudes] of [analyze_earthquakes], over which [min],
    [max] and the mean are taken: what [get_magnitude] reads of every
    record, without the [None]s. *)
Definition statistic_values (features : list value) : list value :=
  filter (fun v => negb (is_none v)) (map raw_mag features).

(** The property as the specification states it: a record without a [mag]
    field leaves the magnitudes of the statistics as they are without
    the record. *)
Definition absent_magnitude_excluded : Prop :=
  forall pre e post,
    Forall (fun e => well_formed e = true) (pre ++ e :: post) ->
    lookup2 "properties" "mag" e = None ->
    Analysis.magnitudes_of (pre ++ e :: post) = Analysis.magnitudes_of (pre ++ post).

(** ** Accessors and absent fields *)

(** The property as the specification states it, of one accessor: it
    returns on every record, whichever optional fields are absent. *)
Definition never_raises (accessor : value -> result value) : Prop :=
  forall e, well_formed e = true -> exists v, accessor e = Ok v.

(** ** The empty collection *)

(** The document has no [features] field. *)
Definition features_absent (data : value) : Prop :=
  exists d, data = VDict d /\ dict_get "features" d = None.

Definition empty_collection (data : value) : Prop :=
  collection data [] \/ features_absent data.

(** The property as the specification states it, of a count and a maximum
    search: on every empty collection the count is 0 and the search
    returns magnitude 0 and location (None, None), with no record or
    with None for it. *)
Definition empty_summary (count : value -> result nat)
  (maximum : value -> result value) : Prop :=
  forall data, empty_collection data ->
    count data = Ok 0%nat /\
    (maximum data = Ok (VTuple [vzero; none_pair]) \/
     maximum data = Ok (VTuple [vzero; none_pair; VNone])).

(** ** A response that is not 200 *)

(** The property as the specification states it, of the script that does not
    return None: a response whose status is not 200 makes [get_data]
    raise. *)
Definition failure_propagates : Prop :=
  forall response, Completed.status_code response <> 200%Z ->
    raises (Completed.get_data (Ok response)).

(** ** The order of the report *)

(** The key of the sort as a number: the magnitude, 0 for a magnitude
    that is 0, null or not there. *)
Definition key_num (e : value) : Q :=
  match raw_mag e with
  | VNum q => if Qnonzero q then q else 0
  | _ => 0
  end.

Definition keyed (e : value) : Q * value := (key_num e, e).

Definition by_key_desc (a b : Q * value) : Prop := fst b <= fst a.

(** The key of the sort: the magnitude, a missing magnitude being 0. *)
Definition sort_key_of (e : value) : Q :=
  match magnitude_of e with
  | Some q => q
  | None => 0
  end.

Definition descending (l : list value) : Prop :=
  StronglySorted (fun a b => sort_key_of b <= sort_key_of a) l.

(** The record carries a magnitude above 0. *)
Definition positive_magnitude (e : value) : Prop :=
  exists q, magnitude_of e = Some q /\ 0 < q.

(** The lines of a report that list the strongest earthquakes. *)
Definition entry_template : string := "{}. Magnitude {:.2f} - {} - {}".

Definition is_entry (o : out) : bool :=
  match o with
  | Print template _ => String.eqb template entry_template
  end.

Definition top5_lines (t : list out) : list out :=
  filter is_entry t.

(** The magnitude a line of the list shows. *)
Definition shown_magnitude (o : out) : value :=
  match o with
  | Print _ (_ :: magnitude :: _) => magnitude
  | _ => VNone
  end.

(** A number that has the [.2f] and [.4f] formats. *)
Definition printable (v : value) : bool :=
  match v with VNum q => in_float_range q | _ => false end.

(** A record the report can print in full: its magnitude is a number and
    its coordinates start with two numbers, all three within the range of
    [float]. *)
Definition reportable (e : value) : bool :=
  match lookup2 "properties" "mag" e, lookup2 "geometry" "coordinates" e with
  | Some (VNum m), Some (VList (VNum lon :: VNum lat :: _)) =>
      in_float_range m && in_float_range lon && in_float_range lat
  | _, _ => false
  end.

(** The average of the magnitudes of the statistics is computed: the
    division returns. *)
Definition average_returns (average : list value -> result value)
  (features : list value) : Prop :=
  exists avg, average (statistic_values features) = Ok avg.

(** The record can be listed: it is reportable and the clock library
    converts its time. *)
Definition listable (fromtimestamp : Q -> result value) (e : value) : Prop :=
  reportable e = true /\
  exists t, Analysis.get_time fromtimestamp e = Ok t.


(** ** Sample documents *)

Definition quake (mag : value) (coordinates : list value) : value :=
  VDict [("type", VStr "Feature");
         ("properties", VDict [("mag", mag); ("place", VStr "Scotland");
                               ("time", VNum 946684800000)]);
         ("geometry", VDict [("type", VStr "Point");
                             ("coordinates", VList coordinates)])].

Definition geojson (features : list value) : value :=
  VDict [("type", VStr "FeatureCollection"); ("features", VList features)].

(** The scenario of the specification. *)
Definition scenario : list value :=
  [quake (VNum 4.5) [VNum (-3); VNum 55; VNum 10];
   quake (VNum 5.2) [VNum (-1); VNum 53; VNum 5];
   quake (VNum 3.1) [VNum (-4); VNum 57; VNum 8]].

Definition below_zero : list value :=
  [quake (VNum (-1.5)) [VNum (-3); VNum 55; VNum 10]].

Definition silent : list value :=
  [quake (VNum 0) [VNum (-3); VNum 55; VNum 10];
   quake VNone [VNum (-1); VNum 53; VNum 5];
   VDict [("type", VStr "Feature")]].

(** A clock library that takes every timestamp. *)
Definition any_time (t : Q) : result value := Ok (VDatetime t).

(** An arithmetic of the average that does not round: the sum of the
    numbers over their count. *)
Fixpoint exact_sum (l : list value) : result Q :=
  match l with
  | [] => Ok 0
  | x :: l' =>
      match to_num x with
      | Some q => bind (exact_sum l') (fun total => Ok (q + total))
      | None => Raise TypeError
      end
  end.

Definition exact_average (l : list value) : result value :=
  bind (exact_sum l) (fun total =>
  Ok (VNum (total / inject_Z (Z.of_nat (List.length l))))).

Definition no_mag : value :=
  VDict [("type", VStr "Feature");
         ("properties", VDict [("place", VStr "Wales")]);
         ("geometry", VDict [("coordinates", VList [VNum (-4); VNum 52; VNum 7])])].

Definition two_and_absent : list value :=
  [quake (VNum 2) [VNum (-3); VNum 55; VNum 10]; no_mag].

Definition five_and_absent : list value :=
  [quake (VNum 5) [VNum (-3); VNum 55; VNum 10]; no_mag].

Definition not_found : Completed.response :=
  {| Completed.status_code := 404; Completed.text := Completed.Document (geojson []) |}.

Definition no_features_document : value :=
  VDict [("type", VStr "FeatureCollection")].

Definition found_empty : Completed.response :=
  {| Completed.status_code := 200;
     Completed.text := Completed.Document no_features_document |}.

Definition with_null : list value :=
  [quake (VNum 2) [VNum (-3); VNum 55; VNum 10];
   quake VNone [VNum (-1); VNum 53; VNum 5]].

Definition without_coordinates : list value :=
  [VDict [("properties", VDict [("mag", VNum 3)])]].

Definition six : list value :=
  [quake (VNum 2.1) []; quake VNone []; quake (VNum 4.7) []; no_mag;
   quake (VNum 3.3) []; quake (VNum 4.7) [VNum (-2); VNum 56]].

(** ** The statistics over numbers *)

(** [min] and [max] as they run over a list of numbers. *)
Definition qmin_from (cur : Q) (l : list Q) : Q :=
  fold_left (fun cur x => if Qgtb cur x then x else cur) l cur.

Definition qmax_from (cur : Q) (l : list Q) : Q :=
  fold_left (fun cur x => if Qgtb x cur then x else cur) l cur.


(** ** Records of one sort key *)

(** The sort key of the record is [k]. *)
Definition has_key (k : Q) (e : value) : bool := Qeq_bool (key_num e) k.

(** The key a decorated record is sorted by is [k]. *)
Definition fst_is (k : Q) (p : Q * value) : bool := Qeq_bool (fst p) k.

(** ** Values of another type than the scripts expect *)

Definition is_dict (v : value) : bool :=
  match v with VDict _ => true | _ => false end.

(** The [properties] of the record are absent or a dict whose [mag], when
    there, is a number or null; nothing is asked of its [geometry]. *)
Definition properties_fine (e : value) : bool :=
  match e with
  | VDict d => opt_all properties_ok (dict_get "properties" d)
  | _ => false
  end.

(** ** More sample documents *)

Definition found_scenario : Completed.response :=
  {| Completed.status_code := 200;
     Completed.text := Completed.Document (geojson scenario) |}.

Definition empty_array : Completed.response :=
  {| Completed.status_code := 200;
     Completed.text := Completed.Document (VList []) |}.

Definition no_geometry (mag : value) : value :=
  VDict [("properties", VDict [("mag", mag)]); ("geometry", VNone)].

(** * Properties *)

(** ** Rational comparisons *)

Lemma Qgtb_true (a b : Q) : Qgtb a b = true <-> b < a.
Proof.
  unfold Qgtb. rewrite negb_true_iff. split.
  - intro H. apply Qnot_le_lt. intro Hle.
    apply Qle_bool_iff in Hle. congruence.
  - intro H. destruct (Qle_bool a b) eqn:E; [|reflexivity].
    apply Qle_bool_iff in E. exfalso. exact (Qlt_not_le _ _ H E).
Qed.

Lemma Qgtb_false (a b : Q) : Qgtb a b = false <-> a <= b.
Proof.
  unfold Qgtb. rewrite negb_false_iff. apply Qle_bool_iff.
Qed.

Lemma Qnonzero_true (q : Q) : Qnonzero q = true <-> ~ q == 0.
Proof.
  unfold Qnonzero. rewrite negb_true_iff. split.
  - intros H E. apply Qeq_bool_iff in E. congruence.
  - intro H. destruct (Qeq_bool q 0) eqn:E; [|reflexivity].
    apply Qeq_bool_iff in E. contradiction.
Qed.

Lemma Qnonzero_false (q : Q) : Qnonzero q = false <-> q == 0.
Proof.
  unfold Qnonzero. rewrite negb_false_iff. apply Qeq_bool_iff.
Qed.

(** ** What the accessors of [earthquake_analysis.py] return *)

Lemma get_magnitude_raw (e : value) :
  well_formed e = true -> Analysis.get_magnitude e = Ok (raw_mag e).
Proof.
  destruct e as [| | | | | |d|]; simpl; try discriminate. intro H.
  apply andb_true_iff in H as [Hp _].
  unfold Analysis.get_magnitude, raw_mag, lookup2; simpl.
  destruct (dict_get "properties" d) as [p|]; simpl in *.
  - destruct p; try discriminate. simpl.
    destruct (dict_get "mag" d0); reflexivity.
  - reflexivity.
Qed.

Lemma raw_mag_cases (e : value) :
  well_formed e = true ->
  (raw_mag e = VNone /\ lookup2 "properties" "mag" e = Some VNone) \/
  (exists q, raw_mag e = VNum q /\ magnitude_of e = Some q) \/
  (raw_mag e = vzero /\ lookup2 "properties" "mag" e = None).
Proof.
  destruct e as [| | | | | |d|]; simpl; try discriminate. intro H.
  apply andb_true_iff in H as [Hp _].
  unfold raw_mag, magnitude_of, lookup2.
  destruct (dict_get "properties" d) as [p|]; simpl in *; [|auto].
  destruct p; try discriminate. simpl in Hp.
  destruct (dict_get "mag" d0) as [m|]; simpl in *; [|auto].
  destruct m; try discriminate; eauto.
Qed.

Lemma get_location_total (e : value) :
  well_formed e = true -> exists loc, Analysis.get_location e = Ok loc.
Proof.
  destruct e as [| | | | | |d|]; simpl; try discriminate. intro H.
  apply andb_true_iff in H as [_ Hg].
  unfold Analysis.get_location; simpl.
  destruct (dict_get "geometry" d) as [g|]; simpl in *; [|eauto].
  destruct g; try discriminate. simpl in *.
  destruct (dict_get "coordinates" d0) as [c|]; simpl in *; [|eauto].
  destruct c; try discriminate. simpl.
  destruct l as [|a [|b l]]; simpl; eauto.
Qed.

(** ** The scan of [get_maximum] *)

Module Scan.
Import Analysis.

Lemma invariant_start : scan_invariant [] scan0.
Proof.
  exists 0. repeat split; try reflexivity; try lra.
  - intros e q [].
  - now left.
Qed.

Lemma selected_snoc (pre : list value) (st : scan) (c : Q) (e : value) :
  scan_selected pre st c -> scan_selected (pre ++ [e]) st c.
Proof.
  intros (i & e0 & Hi & Hm & Hc & He & Hl & Hfirst).
  assert (Hlen : (i < List.length pre)%nat)
    by (apply nth_error_Some; congruence).
  exists i, e0. repeat split; auto.
  - rewrite nth_error_app1; auto.
  - intros j e' q Hj Hn. rewrite nth_error_app1 in Hn by lia. eauto.
Qed.

(** A record that is not selected keeps the invariant when its magnitude,
    if it carries one, is below the running maximum. *)
Lemma invariant_skip (pre : list value) (st : scan) (e : value) :
  scan_invariant pre st ->
  (forall c q, max_magnitude st = VNum c -> magnitude_of e = Some q -> q <= c) ->
  scan_invariant (pre ++ [e]) st.
Proof.
  intros (c & Hmax & Hc & Hall & Hsel) Hle.
  exists c. repeat split; auto.
  - intros e' q Hin Hq. apply in_app_or in Hin as [Hin | [<- | []]]; eauto.
  - destruct Hsel as [-> | Hsel]; [now left | right].
    now apply selected_snoc.
Qed.

Lemma magnitude_of_none (e : value) :
  lookup2 "properties" "mag" e = Some VNone \/
  lookup2 "properties" "mag" e = None ->
  magnitude_of e = None.
Proof. unfold magnitude_of. now intros [-> | ->]. Qed.

Lemma step_invariant (pre : list value) (st : scan) (e : value) :
  scan_invariant pre st -> well_formed e = true ->
  exists st', step st e = Ok st' /\ scan_invariant (pre ++ [e]) st'.
Proof.
  intros Hinv Hwf. unfold step.
  rewrite (get_magnitude_raw e Hwf). simpl.
  destruct (raw_mag_cases e Hwf) as [[-> Hl] | [(q & -> & Hq) | [-> Hl]]]; simpl.
  - exists st. split; [reflexivity|]. apply invariant_skip; auto.
    intros c q _ Hq. rewrite (magnitude_of_none e) in Hq by auto.
    discriminate.
  - destruct Hinv as (c & Hmax & Hc & Hall & Hsel).
    rewrite Hmax. unfold gt; simpl.
    destruct (Qnonzero q) eqn:Hnz; simpl;
      [destruct (Qgtb q c) eqn:Hgt; simpl|].
    + apply Qgtb_true in Hgt.
      destruct (get_location_total e Hwf) as [loc Hloc]. rewrite Hloc. simpl.
      eexists. split; [reflexivity|].
      exists q. simpl. repeat split; try lra.
      * intros e' q' Hin Hq'.
        apply in_app_or in Hin as [Hin | [<- | []]].
        -- specialize (Hall _ _ Hin Hq'). lra.
        -- rewrite Hq in Hq'. injection Hq' as <-. lra.
      * right. exists (List.length pre), e. simpl. repeat split; auto.
        -- rewrite nth_error_app2 by lia. now rewrite Nat.sub_diag.
        -- lra.
        -- intros j e' q' Hj Hn Hq'. rewrite nth_error_app1 in Hn by lia.
           apply nth_error_In in Hn. specialize (Hall _ _ Hn Hq'). lra.
    + apply Qgtb_false in Hgt.
      exists st. split; [reflexivity|]. apply invariant_skip.
      * exists c; auto.
      * intros c' q' Hc' Hq'. rewrite Hmax in Hc'. injection Hc' as <-.
        rewrite Hq in Hq'. now injection Hq' as <-.
    + apply Qnonzero_false in Hnz.
      exists st. split; [reflexivity|]. apply invariant_skip.
      * exists c; auto.
      * intros c' q' Hc' Hq'. rewrite Hmax in Hc'. injection Hc' as <-.
        rewrite Hq in Hq'. injection Hq' as <-. lra.
  - exists st. split; [reflexivity|]. apply invariant_skip; auto.
    intros c q _ Hq. rewrite (magnitude_of_none e) in Hq by auto.
    discriminate.
Qed.

Lemma loop_invariant (features : list value) :
  Forall (fun e => well_formed e = true) features ->
  forall pre st, scan_invariant pre st ->
  exists st', loop st features = Ok st' /\ scan_invariant (pre ++ features) st'.
Proof.
  induction 1 as [|e rest He _ IH]; intros pre st Hinv; simpl.
  - exists st. now rewrite app_nil_r.
  - destruct (step_invariant pre st e Hinv He) as (st1 & -> & Hinv1). simpl.
    destruct (IH _ _ Hinv1) as (st' & Hloop & Hinv').
    exists st'. split; [assumption|].
    now rewrite <- app_assoc in Hinv'.
Qed.

(** On a collection the guard of [get_maximum] lets the scan run. *)
Lemma get_maximum_collection (data : value) (features : list value) :
  collection data features ->
  get_maximum data =
  bind (loop scan0 features) (fun st =>
  Ok (VTuple [max_magnitude st; max_location st; max_earthquake st])).
Proof.
  intros (d & -> & Hf). unfold get_maximum, no_features.
  assert (Ht : truthy (VDict d) = true) by (destruct d; [discriminate|reflexivity]).
  rewrite Ht. unfold contains, getitem. rewrite Hf. reflexivity.
Qed.

End Scan.

(** ** The two variants on complete records *)

Module Agree.

Lemma carried_fields (e : value) :
  carries_fields e = true ->
  exists d p m g lon lat rest,
    e = VDict d /\
    dict_get "properties" d = Some (VDict p) /\
    dict_get "mag" p = Some m /\
    dict_get "geometry" d = Some (VDict g) /\
    dict_get "coordinates" g = Some (VList (lon :: lat :: rest)).
Proof.
  unfold carries_fields, lookup2. destruct e as [| | | | | |d|]; try discriminate.
  destruct (dict_get "properties" d) as [[| | | | | |p|]|] eqn:Hp; try discriminate.
  destruct (dict_get "mag" p) as [m|] eqn:Hm; try discriminate.
  destruct (dict_get "geometry" d) as [[| | | | | |g|]|] eqn:Hg; try discriminate.
  destruct (dict_get "coordinates" g) as [[| | | |[|lon [|lat rest]]| | |]|] eqn:Hc;
    try discriminate.
  intros _. exists d, p, m, g, lon, lat, rest. auto 10.
Qed.

Lemma complete_carries (e : value) :
  complete e = true ->
  carries_fields e = true /\
  exists m, lookup2 "properties" "mag" e = Some m /\ mag_ok m = true.
Proof.
  unfold complete, carries_fields.
  destruct (lookup2 "properties" "mag" e) as [m|]; try discriminate.
  destruct (lookup2 "geometry" "coordinates" e) as [[| | | |[|lon [|lat rest]]| | |]|];
    try discriminate.
  eauto.
Qed.

Lemma complete_well_formed (e : value) :
  complete e = true -> well_formed e = true.
Proof.
  intro H. destruct (complete_carries e H) as (Hf & m' & Hm' & Hok).
  destruct (carried_fields e Hf)
    as (d & p & m & g & lon & lat & rest & -> & Hp & Hm & Hg & Hc).
  unfold lookup2 in Hm'. rewrite Hp, Hm in Hm'. injection Hm' as <-.
  simpl. rewrite Hp, Hg. simpl. rewrite Hm, Hc. simpl. now rewrite Hok.
Qed.

Lemma get_magnitude_agree (e : value) :
  carries_fields e = true ->
  Completed.get_magnitude e = Analysis.get_magnitude e.
Proof.
  intro H. destruct (carried_fields e H)
    as (d & p & m & g & lon & lat & rest & -> & Hp & Hm & Hg & Hc).
  unfold Completed.get_magnitude, Analysis.get_magnitude, getitem, get.
  rewrite Hp. simpl. now rewrite Hm.
Qed.

Lemma get_location_agree (e : value) :
  carries_fields e = true ->
  Completed.get_location e = Analysis.get_location e.
Proof.
  intro H. destruct (carried_fields e H)
    as (d & p & m & g & lon & lat & rest & -> & Hp & Hm & Hg & Hc).
  unfold Completed.get_location, Analysis.get_location, getitem, get.
  rewrite Hg. simpl. now rewrite Hc.
Qed.

Lemma step_agree (st : Analysis.scan) (e : value) :
  carries_fields e = true ->
  Completed.step (forget st) e =
  bind (Analysis.step st e) (fun st' => Ok (forget st')).
Proof.
  intro H. unfold Completed.step, Analysis.step.
  rewrite (get_magnitude_agree e H), (get_location_agree e H).
  destruct (Analysis.get_magnitude e) as [m|]; simpl; [|reflexivity].
  destruct (truthy m); [|reflexivity].
  destruct (gt m (Analysis.max_magnitude st)) as [[|]|]; simpl; try reflexivity.
  destruct (Analysis.get_location e); reflexivity.
Qed.

Lemma loop_agree (features : list value) :
  Forall (fun e => carries_fields e = true) features ->
  forall st,
    Completed.loop (forget st) features =
    bind (Analysis.loop st features) (fun st' => Ok (forget st')).
Proof.
  induction 1 as [|e rest He _ IH]; intro st; simpl; [reflexivity|].
  rewrite (step_agree st e He).
  destruct (Analysis.step st e) as [st1|]; simpl; [apply IH | reflexivity].
Qed.

Lemma get_maximum_agree (data : value) (features : list value) :
  collection data features ->
  Forall (fun e => carries_fields e = true) features ->
  Completed.get_maximum data =
  bind (Analysis.loop Analysis.scan0 features) (fun st =>
  Ok (vpair (Analysis.max_magnitude st) (Analysis.max_location st))).
Proof.
  intros (d & -> & Hf) Hall. unfold Completed.get_maximum, getitem.
  rewrite Hf. simpl.
  change Completed.scan0 with (forget Analysis.scan0).
  rewrite (loop_agree features Hall).
  destruct (Analysis.loop Analysis.scan0 features); reflexivity.
Qed.

Lemma all_carry (features : list value) :
  Forall (fun e => complete e = true) features ->
  Forall (fun e => carries_fields e = true) features.
Proof.
  apply Forall_impl. intros e H. now destruct (complete_carries e H).
Qed.

End Agree.

(** ** C1: the maximum and the first record that carries it *)

Lemma collection_geojson (features : list value) :
  collection (geojson features) features.
Proof. eexists. split; reflexivity. Qed.

(** *** The script without defaults at a record without [mag] *)

Lemma completed_magnitude_read (e m : value) :
  lookup2 "properties" "mag" e = Some m -> Completed.get_magnitude e = Ok m.
Proof.
  unfold lookup2, Completed.get_magnitude, getitem.
  destruct e as [| | | | | |d|]; try discriminate.
  destruct (dict_get "properties" d) as [[| | | | | |p|]|]; try discriminate.
  simpl. now intros ->.
Qed.

Lemma completed_magnitude_absent (e : value) :
  well_formed e = true ->
  lookup2 "properties" "mag" e = None ->
  Completed.get_magnitude e = Raise KeyError.
Proof.
  destruct e as [| | | | | |d|]; simpl; try discriminate. intro H.
  apply andb_true_iff in H as [Hp _].
  unfold Completed.get_magnitude, lookup2, getitem.
  destruct (dict_get "properties" d) as [[| | | | | |p|]|]; simpl in *;
    try discriminate; [|reflexivity].
  now intros ->.
Qed.

Lemma completed_loop_app (l1 l2 : list value) (st : Completed.scan) :
  Completed.loop st (l1 ++ l2) =
  bind (Completed.loop st l1) (fun st' => Completed.loop st' l2).
Proof.
  revert st. induction l1 as [|e l1 IH]; intro st; simpl; [reflexivity|].
  destruct (Completed.step st e) as [st1|]; simpl; [apply IH | reflexivity].
Qed.

(** The search of [earthquakes_completed.py] raises [KeyError] at the
    first record without [mag], the records before it being complete. *)
Lemma completed_raises_at (data : value) (pre post : list value) (e : value) :
  collection data (pre ++ e :: post) ->
  Forall (fun e => complete e = true) pre ->
  well_formed e = true ->
  lookup2 "properties" "mag" e = None ->
  Completed.get_maximum data = Raise KeyError.
Proof.
  intros (d & -> & Hf) Hpre Hwf Habsent.
  assert (Hwfpre : Forall (fun e => well_formed e = true) pre).
  { revert Hpre. apply Forall_impl. apply Agree.complete_well_formed. }
  destruct (Scan.loop_invariant pre Hwfpre [] Analysis.scan0 Scan.invariant_start)
    as (st & Hloop & _).
  unfold Completed.get_maximum, getitem. rewrite Hf. cbn [bind iter].
  rewrite completed_loop_app.
  change Completed.scan0 with (forget Analysis.scan0).
  rewrite (Agree.loop_agree pre (Agree.all_carry pre Hpre)), Hloop.
  cbn [bind Completed.loop]. unfold Completed.step.
  now rewrite (completed_magnitude_absent e Hwf Habsent).
Qed.

(** C1, amended: for every collection of well-formed records with at least
    one record of positive magnitude, [get_maximum] of
    [earthquake_analysis.py] returns the greatest magnitude, the first
    record of the collection that carries it and the location of that
    record; [get_maximum] of [earthquakes_completed.py] returns the same
    magnitude and location when every record is complete, and raises
    [KeyError] at the first record without a [mag] field, the records
    before it being complete. *)
Theorem get_maximum_first_maximum (data : value) (features : list value) :
  collection data features ->
  Forall (fun e => well_formed e = true) features ->
  Exists (fun e => exists q, magnitude_of e = Some q /\ 0 < q) features ->
  finds_maximum data features /\
  (forall pre e post,
     features = pre ++ e :: post ->
     Forall (fun e => complete e = true) pre ->
     lookup2 "properties" "mag" e = None ->
     Completed.get_maximum data = Raise KeyError).
Proof.
  intros Hcol Hwf Hpos. split.
  2:{ intros pre e post -> Hpre Habsent.
      apply (completed_raises_at data pre post e Hcol Hpre); [|exact Habsent].
      apply Forall_app in Hwf as [_ Hwf]. now inversion Hwf. }
  destruct (Scan.loop_invariant features Hwf [] Analysis.scan0 Scan.invariant_start)
    as (st & Hloop & c & Hmax & Hc & Hall & Hsel).
  simpl in Hall, Hsel.
  destruct Hsel as [-> | (i & e & Hi & Hm & Hcpos & He & Hloc & Hfirst)].
  - exfalso. apply Exists_exists in Hpos as (e & Hin & q & Hq & Hqpos).
    specialize (Hall e q Hin Hq). simpl in Hmax. injection Hmax as <-. lra.
  - exists i, e, c, (Analysis.max_location st). repeat split; auto.
    + rewrite (Scan.get_maximum_collection data features Hcol), Hloop.
      simpl. now rewrite Hmax, He.
    + intros e' q Hin Hq _. eauto.
    + intros j e' q Hj Hn Hq Heq. specialize (Hfirst j e' q Hj Hn Hq). lra.
    + intro Hcomplete.
      rewrite (Agree.get_maximum_agree data features Hcol (Agree.all_carry _ Hcomplete)), Hloop.
      simpl. unfold vpair. now rewrite Hmax.
Qed.

Lemma get_maximum_first_maximum_witness :
  finds_maximum (geojson scenario) scenario /\
  Completed.get_maximum (geojson five_and_absent) = Raise KeyError.
Proof.
  split.
  - apply (get_maximum_first_maximum (geojson scenario) scenario).
    + apply collection_geojson.
    + repeat constructor.
    + apply Exists_cons_hd. exists 4.5. split; [reflexivity | reflexivity].
  - destruct (get_maximum_first_maximum (geojson five_and_absent) five_and_absent)
      as [_ H].
    + apply collection_geojson.
    + repeat constructor.
    + apply Exists_cons_hd. exists 5. split; [reflexivity | reflexivity].
    + apply (H [quake (VNum 5) [VNum (-3); VNum 55; VNum 10]] no_mag []);
        [reflexivity | repeat constructor | reflexivity].
Defined.

(** C1 as the specification states it fails: a record of negative
    magnitude is present and not 0, and is never selected; and with a
    positive magnitude in the collection, the search of
    [earthquakes_completed.py] does not return when a record has no
    [mag]. *)
Lemma get_maximum_negative_counterexample :
  Analysis.get_maximum (geojson below_zero) = Ok (VTuple [vzero; none_pair; VNone]) /\
  Completed.get_maximum (geojson below_zero) = Ok (VTuple [vzero; none_pair]) /\
  ~ maximum_claim (fun q => ~ q == 0) /\
  Completed.get_maximum (geojson five_and_absent) = Raise KeyError /\
  ~ maximum_returned Completed.get_maximum (fun q => 0 < q).
Proof.
  split; [reflexivity|]. split; [reflexivity|]. split.
  2:{ split; [reflexivity|]. intro H.
      destruct (H (geojson five_and_absent) five_and_absent) as (m & loc & Hget).
      - apply collection_geojson.
      - repeat constructor.
      - apply Exists_cons_hd. exists 5. split; reflexivity.
      - discriminate Hget. }
  intro H.
  destruct (H (geojson below_zero) below_zero) as (i & e & m & loc & Hget & Hfirst & _).
  - apply collection_geojson.
  - repeat constructor.
  - apply Exists_cons_hd. exists (-1.5). split; [reflexivity|].
    intro Heq. discriminate Heq.
  - destruct Hfirst as (Hi & Hm & _).
    assert (Hres : Analysis.get_maximum (geojson below_zero)
                   = Ok (VTuple [vzero; none_pair; VNone])) by reflexivity.
    rewrite Hres in Hget. injection Hget as _ _ <-.
    destruct i as [|[|i]]; simpl in Hi; discriminate.
Qed.

(** ** C2: latitude first *)

(** C2: for every record whose [geometry.coordinates] is the array
    (longitude, latitude, [depth]), [get_location] of either script
    returns the pair (latitude, longitude), which is not the raw order
    unless the two values are the same. *)
Theorem get_location_swaps (e lon lat : value) (rest : list value) :
  lookup2 "geometry" "coordinates" e = Some (VList (lon :: lat :: rest)) ->
  Analysis.get_location e = Ok (vpair lat lon) /\
  Completed.get_location e = Ok (vpair lat lon) /\
  (lon <> lat -> Analysis.get_location e <> Ok (vpair lon lat) /\
                 Completed.get_location e <> Ok (vpair lon lat)).
Proof.
  unfold lookup2. destruct e as [| | | | | |d|]; try discriminate.
  destruct (dict_get "geometry" d) as [[| | | | | |g|]|] eqn:Hg; try discriminate.
  intro Hc.
  assert (Ha : Analysis.get_location (VDict d) = Ok (vpair lat lon)).
  { unfold Analysis.get_location, get. rewrite Hg. simpl. now rewrite Hc. }
  assert (Hb : Completed.get_location (VDict d) = Ok (vpair lat lon)).
  { unfold Completed.get_location, getitem. rewrite Hg. simpl. now rewrite Hc. }
  rewrite Ha, Hb. repeat split; auto.
  - intro H'. injection H' as ->. congruence.
  - intro H'. injection H' as ->. congruence.
Qed.

Lemma get_location_swaps_witness :
  Analysis.get_location (quake (VNum 5.2) [VNum (-1); VNum 53; VNum 5])
  = Ok (vpair (VNum 53) (VNum (-1))) /\
  Completed.get_location (quake (VNum 5.2) [VNum (-1); VNum 53; VNum 5])
  = Ok (vpair (VNum 53) (VNum (-1))).
Proof.
  destruct (get_location_swaps (quake (VNum 5.2) [VNum (-1); VNum 53; VNum 5])
              (VNum (-1)) (VNum 53) [VNum 5]) as (Ha & Hb & _).
  - reflexivity.
  - split; [exact Ha | exact Hb].
Defined.

(** ** C4: magnitude 0 or missing *)

Lemma raw_mag_falsy (e : value) :
  well_formed e = true -> zero_or_missing e -> truthy (raw_mag e) = false.
Proof.
  intros Hwf [[H | H] | (q & Hq & Hz)]; unfold raw_mag.
  - now rewrite H.
  - now rewrite H.
  - unfold magnitude_of in Hq.
    destruct (lookup2 "properties" "mag" e) as [[]|]; try discriminate.
    injection Hq as ->. simpl. now apply Qnonzero_false.
Qed.

Lemma step_skips (st : Analysis.scan) (e : value) :
  well_formed e = true -> zero_or_missing e -> Analysis.step st e = Ok st.
Proof.
  intros Hwf Hz. unfold Analysis.step.
  rewrite (get_magnitude_raw e Hwf). simpl.
  now rewrite (raw_mag_falsy e Hwf Hz).
Qed.

Lemma loop_skips (features : list value) (st : Analysis.scan) :
  Forall (fun e => well_formed e = true) features ->
  Forall zero_or_missing features ->
  Analysis.loop st features = Ok st.
Proof.
  intros Hwf Hz. induction Hwf as [|e rest He _ IH]; simpl; [reflexivity|].
  inversion Hz; subst. rewrite (step_skips st e); auto.
Qed.

Lemma completed_step_skips (st : Completed.scan) (e : value) :
  well_formed e = true -> zero_or_missing e ->
  lookup2 "properties" "mag" e <> None ->
  Completed.step st e = Ok st.
Proof.
  intros Hwf Hz Hm. unfold Completed.step.
  pose proof (raw_mag_falsy e Hwf Hz) as Hfalse. unfold raw_mag in Hfalse.
  destruct (lookup2 "properties" "mag" e) as [m|] eqn:Hlook; [|congruence].
  rewrite (completed_magnitude_read e m Hlook). simpl. now rewrite Hfalse.
Qed.

Lemma completed_step_raises (st : Completed.scan) (e : value) :
  well_formed e = true ->
  lookup2 "properties" "mag" e = None ->
  Completed.step st e = Raise KeyError.
Proof.
  intros Hwf Habsent. unfold Completed.step.
  now rewrite (completed_magnitude_absent e Hwf Habsent).
Qed.

(** C4, amended: in [earthquake_analysis.py] a record whose magnitude is 0
    or missing leaves the state of the scan as it was, whatever the
    state; a collection of such records alone gives magnitude 0, location
    (None, None) and no record; and what a scan returns as the record is
    None or a record of the collection that is not such a record.  In
    [earthquakes_completed.py] a record whose [mag] is 0 or null leaves
    the state as it was, and on complete records the search returns the
    magnitude and the location of the other script; a record without a
    [mag] field makes the step, and the search that comes to it, raise
    [KeyError]. *)
Theorem zero_or_missing_never_selected (data : value) (features : list value) :
  collection data features ->
  Forall (fun e => well_formed e = true) features ->
  (forall e, In e features -> zero_or_missing e ->
     (forall st, Analysis.step st e = Ok st) /\
     (lookup2 "properties" "mag" e <> None ->
        forall st, Completed.step st e = Ok st) /\
     (lookup2 "properties" "mag" e = None ->
        forall st, Completed.step st e = Raise KeyError)) /\
  (Forall zero_or_missing features ->
     Analysis.get_maximum data = Ok (VTuple [vzero; none_pair; VNone]) /\
     (Forall (fun e => complete e = true) features ->
        Completed.get_maximum data = Ok (VTuple [vzero; none_pair]))) /\
  (exists m loc e,
     Analysis.get_maximum data = Ok (VTuple [m; loc; e]) /\
     (e = VNone \/ (In e features /\ ~ zero_or_missing e)) /\
     (Forall (fun e => complete e = true) features ->
        Completed.get_maximum data = Ok (VTuple [m; loc]))) /\
  (forall pre e post,
     features = pre ++ e :: post ->
     Forall (fun e => complete e = true) pre ->
     lookup2 "properties" "mag" e = None ->
     Completed.get_maximum data = Raise KeyError).
Proof.
  intros Hcol Hwf. split; [|split; [|split]].
  - intros e Hin Hz. rewrite Forall_forall in Hwf. split; [|split].
    + intro st. apply step_skips; auto.
    + intros Hm st. apply completed_step_skips; auto.
    + intros Hm st. apply completed_step_raises; auto.
  - intro Hz. split.
    + rewrite (Scan.get_maximum_collection data features Hcol).
      now rewrite (loop_skips features Analysis.scan0 Hwf Hz).
    + intro Hcomplete.
      rewrite (Agree.get_maximum_agree data features Hcol
                 (Agree.all_carry _ Hcomplete)).
      now rewrite (loop_skips features Analysis.scan0 Hwf Hz).
  - destruct (Scan.loop_invariant features Hwf [] Analysis.scan0 Scan.invariant_start)
      as (st & Hloop & c & Hmax & Hc & Hall & Hsel).
    exists (Analysis.max_magnitude st), (Analysis.max_location st),
           (Analysis.max_earthquake st).
    split; [|split].
    + now rewrite (Scan.get_maximum_collection data features Hcol), Hloop.
    + destruct Hsel as [-> | (i & e & Hi & Hm & Hcpos & <- & Hloc & Hfirst)].
      * now left.
      * right. split; [now apply nth_error_In in Hi|].
        intros [[H | H] | (q & Hq & Hz)].
        -- unfold magnitude_of in Hm. now rewrite H in Hm.
        -- unfold magnitude_of in Hm. now rewrite H in Hm.
        -- rewrite Hm in Hq. injection Hq as <-. lra.
    + intro Hcomplete.
      rewrite (Agree.get_maximum_agree data features Hcol
                 (Agree.all_carry _ Hcomplete)), Hloop.
      reflexivity.
  - intros pre e post -> Hpre Habsent.
    apply (completed_raises_at data pre post e Hcol Hpre); [|exact Habsent].
    apply Forall_app in Hwf as [_ Hwf]. now inversion Hwf.
Qed.

Lemma zero_or_missing_never_selected_witness :
  Analysis.get_maximum (geojson silent) = Ok (VTuple [vzero; none_pair; VNone]) /\
  Completed.get_maximum (geojson silent) = Raise KeyError.
Proof.
  destruct (zero_or_missing_never_selected (geojson silent) silent)
    as (_ & Hzero & _ & Hraise).
  - apply collection_geojson.
  - repeat constructor.
  - split.
    + apply Hzero.
      apply Forall_cons; [|apply Forall_cons; [|apply Forall_cons; [|apply Forall_nil]]].
      * right. exists 0. split; reflexivity.
      * left. right. reflexivity.
      * left. left. reflexivity.
    + apply (Hraise [quake (VNum 0) [VNum (-3); VNum 55; VNum 10];
                     quake VNone [VNum (-1); VNum 53; VNum 5]]
                    (VDict [("type", VStr "Feature")]) []);
        [reflexivity | repeat constructor | reflexivity].
Defined.

(** C4 as the specification states it fails on
    [earthquakes_completed.py]: of a record of magnitude 0, a record of
    null magnitude and a record without [mag], the last one is not passed
    over: the search raises at it. *)
Lemma completed_missing_magnitude_counterexample :
  Completed.get_maximum (geojson silent) = Raise KeyError /\
  ~ passes_over_zero_or_missing Completed.get_maximum.
Proof.
  split; [reflexivity|]. intro H.
  destruct (H (geojson silent) silent) as [Hget | Hget].
  - apply collection_geojson.
  - repeat constructor.
  - apply Forall_cons; [|apply Forall_cons; [|apply Forall_cons; [|apply Forall_nil]]].
    + right. exists 0. split; reflexivity.
    + left. right. reflexivity.
    + left. left. reflexivity.
  - discriminate Hget.
  - discriminate Hget.
Qed.

(** ** C8: the two scripts on well-formed collections *)

(** C8: on a collection in which every record carries [properties.mag]
    and a [geometry.coordinates] array of two elements or more,
    [get_maximum] of [earthquakes_completed.py] does what [get_maximum]
    of [earthquake_analysis.py] does, less the record; when the
    magnitudes are numbers or null both return, and they return the same
    magnitude and the same (latitude, longitude) pair. *)
Theorem get_maximum_variants_agree (data : value) (features : list value) :
  collection data features ->
  Forall (fun e => carries_fields e = true) features ->
  Completed.get_maximum data = bind (Analysis.get_maximum data) without_record /\
  (Forall (fun e => complete e = true) features ->
   exists m loc e,
     Analysis.get_maximum data = Ok (VTuple [m; loc; e]) /\
     Completed.get_maximum data = Ok (VTuple [m; loc])).
Proof.
  intros Hcol Hall.
  rewrite (Scan.get_maximum_collection data features Hcol).
  rewrite (Agree.get_maximum_agree data features Hcol Hall).
  split.
  - destruct (Analysis.loop Analysis.scan0 features); reflexivity.
  - intro Hcomplete.
    assert (Hwf : Forall (fun e => well_formed e = true) features).
    { revert Hcomplete. apply Forall_impl. apply Agree.complete_well_formed. }
    destruct (Scan.loop_invariant features Hwf [] Analysis.scan0 Scan.invariant_start)
      as (st & Hloop & _).
    exists (Analysis.max_magnitude st), (Analysis.max_location st),
           (Analysis.max_earthquake st).
    rewrite Hloop. split; reflexivity.
Qed.

Lemma get_maximum_variants_agree_witness :
  Analysis.get_maximum (geojson scenario)
  = Ok (VTuple [VNum 5.2; vpair (VNum 53) (VNum (-1));
                quake (VNum 5.2) [VNum (-1); VNum 53; VNum 5]]) /\
  Completed.get_maximum (geojson scenario)
  = Ok (VTuple [VNum 5.2; vpair (VNum 53) (VNum (-1))]).
Proof.
  destruct (get_maximum_variants_agree (geojson scenario) scenario) as [H _].
  - apply collection_geojson.
  - repeat constructor.
  - rewrite H. split; reflexivity.
Defined.

(** ** C5: the magnitudes of the statistics *)

Lemma magnitudes_of_values (features : list value) :
  Forall (fun e => well_formed e = true) features ->
  Analysis.magnitudes_of features = Ok (statistic_values features).
Proof.
  induction 1 as [|e rest He _ IH]; simpl; [reflexivity|].
  rewrite (get_magnitude_raw e He). simpl. unfold statistic_values. simpl.
  destruct (is_none (raw_mag e)); simpl.
  - exact IH.
  - rewrite IH. reflexivity.
Qed.

Lemma statistic_values_app (l1 l2 : list value) :
  statistic_values (l1 ++ l2) = statistic_values l1 ++ statistic_values l2.
Proof. unfold statistic_values. now rewrite map_app, filter_app. Qed.

Lemma count_collection (data : value) (features : list value) :
  collection data features ->
  Analysis.count_earthquakes data = Ok (List.length features).
Proof.
  intros (d & -> & Hf). unfold Analysis.count_earthquakes.
  assert (Ht : truthy (VDict d) = true) by (destruct d; [discriminate|reflexivity]).
  rewrite Ht. unfold contains, getitem. rewrite Hf. reflexivity.
Qed.

(** C5, amended: a record whose [mag] is null is left out of the
    magnitudes over which the range and the mean are computed and is
    counted in the total; a record without a [mag] field is counted in
    the total too, and stands in those magnitudes with the default 0 of
    [get_magnitude]. *)
Theorem null_magnitude_excluded (data : value) (pre post : list value) (e : value) :
  collection data (pre ++ e :: post) ->
  Forall (fun e => well_formed e = true) (pre ++ e :: post) ->
  Analysis.count_earthquakes data = Ok (S (List.length pre + List.length post)) /\
  exists before after,
    Analysis.magnitudes_of pre = Ok before /\
    Analysis.magnitudes_of post = Ok after /\
    Analysis.magnitudes_of (pre ++ post) = Ok (before ++ after) /\
    (lookup2 "properties" "mag" e = Some VNone ->
     Analysis.magnitudes_of (pre ++ e :: post) = Ok (before ++ after)) /\
    (lookup2 "properties" "mag" e = None ->
     Analysis.magnitudes_of (pre ++ e :: post) = Ok (before ++ vzero :: after)).
Proof.
  intros Hcol Hwf. split.
  - rewrite (count_collection data _ Hcol), length_app. simpl.
    f_equal. lia.
  - assert (Hpre : Forall (fun e => well_formed e = true) pre)
      by (apply Forall_app in Hwf; tauto).
    assert (Hpost : Forall (fun e => well_formed e = true) post)
      by (apply Forall_app in Hwf as [_ H]; now inversion H).
    exists (statistic_values pre), (statistic_values post).
    repeat split.
    + now apply magnitudes_of_values.
    + now apply magnitudes_of_values.
    + rewrite magnitudes_of_values by (apply Forall_app; split; assumption).
      now rewrite statistic_values_app.
    + intro Hnull. rewrite (magnitudes_of_values _ Hwf), statistic_values_app.
      assert (Hraw : raw_mag e = VNone) by (unfold raw_mag; now rewrite Hnull).
      unfold statistic_values at 2. simpl. rewrite Hraw. reflexivity.
    + intro Habsent. rewrite (magnitudes_of_values _ Hwf), statistic_values_app.
      assert (Hraw : raw_mag e = vzero) by (unfold raw_mag; now rewrite Habsent).
      unfold statistic_values at 2. simpl. rewrite Hraw. reflexivity.
Qed.

Lemma null_magnitude_excluded_witness :
  Analysis.count_earthquakes
    (geojson ([quake (VNum 2) []] ++ quake VNone [] :: [quake (VNum 3) []]))
  = Ok 3%nat.
Proof.
  destruct (null_magnitude_excluded
              (geojson ([quake (VNum 2) []] ++ quake VNone [] :: [quake (VNum 3) []]))
              [quake (VNum 2) []] [quake (VNum 3) []] (quake VNone []))
    as [H _].
  - apply collection_geojson.
  - repeat constructor.
  - exact H.
Defined.

(** C5 as the specification states it fails: with a record of magnitude 2
    and a record without [mag], the statistics are taken over 2 and 0, so
    that the range starts at 0 and the mean is 1. *)
Lemma absent_magnitude_counterexample :
  Analysis.magnitudes_of two_and_absent = Ok [VNum 2; vzero] /\
  In (Print "Magnitude range: {:.2f} - {:.2f}" [vzero; VNum 2])
     (trace (Analysis.analyze_earthquakes any_time exact_average
               (geojson two_and_absent))) /\
  ~ absent_magnitude_excluded.
Proof.
  split; [reflexivity|]. split.
  - vm_compute. tauto.
  - intro H.
    specialize (H [quake (VNum 2) [VNum (-3); VNum 55; VNum 10]] no_mag []).
    assert (Hwf : Forall (fun e => well_formed e = true) two_and_absent)
      by (repeat constructor).
    specialize (H Hwf eq_refl). discriminate H.
Qed.

(** ** C6: optional fields that are not there *)

Lemma get_place_name_total (e : value) :
  well_formed e = true ->
  exists v, Analysis.get_place_name e = Ok v /\
            (lookup2 "properties" "place" e = None -> v = VStr "Unknown").
Proof.
  destruct e as [| | | | | |d|]; simpl; try discriminate. intro H.
  apply andb_true_iff in H as [Hp _].
  unfold Analysis.get_place_name, lookup2, get.
  destruct (dict_get "properties" d) as [[| | | | | |p|]|]; simpl in *;
    try discriminate.
  - destruct (dict_get "place" p); simpl; eexists; split; eauto; discriminate.
  - eexists; split; eauto.
Qed.

Lemma get_time_absent (fromtimestamp : Q -> result value) (e : value) :
  well_formed e = true ->
  lookup2 "properties" "time" e = None ->
  Analysis.get_time fromtimestamp e = Ok VNone.
Proof.
  destruct e as [| | | | | |d|]; simpl; try discriminate. intro H.
  apply andb_true_iff in H as [Hp _].
  unfold Analysis.get_time, lookup2, get.
  destruct (dict_get "properties" d) as [[| | | | | |p|]|]; simpl in *;
    try discriminate; [|reflexivity].
  intros ->. reflexivity.
Qed.

Lemma get_location_absent (e : value) :
  well_formed e = true ->
  lookup2 "geometry" "coordinates" e = None ->
  Analysis.get_location e = Ok none_pair /\ Completed.get_location e = Raise KeyError.
Proof.
  destruct e as [| | | | | |d|]; simpl; try discriminate. intro H.
  apply andb_true_iff in H as [_ Hg].
  unfold Analysis.get_location, Completed.get_location, lookup2, get, getitem.
  destruct (dict_get "geometry" d) as [[| | | | | |g|]|]; simpl in *;
    try discriminate; [|split; reflexivity].
  intros ->. split; reflexivity.
Qed.

Lemma get_magnitude_absent (e : value) :
  well_formed e = true ->
  lookup2 "properties" "mag" e = None ->
  Analysis.get_magnitude e = Ok vzero /\ Completed.get_magnitude e = Raise KeyError.
Proof.
  destruct e as [| | | | | |d|]; simpl; try discriminate. intro H.
  apply andb_true_iff in H as [Hp _].
  unfold Analysis.get_magnitude, Completed.get_magnitude, lookup2, get, getitem.
  destruct (dict_get "properties" d) as [[| | | | | |p|]|]; simpl in *;
    try discriminate; [|split; reflexivity].
  intros ->. split; reflexivity.
Qed.

(** C6, amended: on every record the accessors of
    [earthquake_analysis.py] for the magnitude, the location and the
    place return, whichever optional fields are absent, and each of the
    four returns its default when its own field is absent: 0,
    (None, None), "Unknown" and None; [get_magnitude] and [get_location]
    of [earthquakes_completed.py] raise [KeyError] there. *)
Theorem accessors_default_when_absent
  (fromtimestamp : Q -> result value) (e : value) :
  well_formed e = true ->
  (exists v, Analysis.get_magnitude e = Ok v) /\
  (exists v, Analysis.get_location e = Ok v) /\
  (exists v, Analysis.get_place_name e = Ok v) /\
  (lookup2 "properties" "mag" e = None ->
     Analysis.get_magnitude e = Ok vzero /\
     Completed.get_magnitude e = Raise KeyError) /\
  (lookup2 "geometry" "coordinates" e = None ->
     Analysis.get_location e = Ok none_pair /\
     Completed.get_location e = Raise KeyError) /\
  (lookup2 "properties" "place" e = None ->
     Analysis.get_place_name e = Ok (VStr "Unknown")) /\
  (lookup2 "properties" "time" e = None ->
     Analysis.get_time fromtimestamp e = Ok VNone).
Proof.
  intro Hwf. repeat split.
  - rewrite (get_magnitude_raw e Hwf). eauto.
  - apply get_location_total, Hwf.
  - destruct (get_place_name_total e Hwf) as (v & Hv & _). eauto.
  - now apply get_magnitude_absent.
  - now apply get_magnitude_absent.
  - now apply get_location_absent.
  - now apply get_location_absent.
  - intro H. destruct (get_place_name_total e Hwf) as (v & Hv & Hd).
    now rewrite Hv, (Hd H).
  - now apply get_time_absent.
Qed.

Lemma accessors_default_when_absent_witness :
  Analysis.get_magnitude (VDict []) = Ok vzero /\
  Analysis.get_location (VDict []) = Ok none_pair /\
  Analysis.get_place_name (VDict []) = Ok (VStr "Unknown") /\
  Analysis.get_time any_time (VDict []) = Ok VNone.
Proof.
  destruct (accessors_default_when_absent any_time (VDict []) eq_refl)
    as (_ & _ & _ & Hm & Hl & Hp & Ht).
  split; [apply Hm; reflexivity|].
  split; [apply Hl; reflexivity|].
  split; [apply Hp; reflexivity|].
  apply Ht; reflexivity.
Defined.

(** C6 as the specification states it fails on the accessors of
    [earthquakes_completed.py]: on a record without fields they raise. *)
Lemma completed_accessors_counterexample :
  Completed.get_magnitude (VDict []) = Raise KeyError /\
  Completed.get_location (VDict []) = Raise KeyError /\
  ~ never_raises Completed.get_magnitude /\
  ~ never_raises Completed.get_location.
Proof.
  split; [reflexivity|]. split; [reflexivity|]. split.
  - intro H. destruct (H (VDict []) eq_refl) as [v Hv]. discriminate Hv.
  - intro H. destruct (H (VDict []) eq_refl) as [v Hv]. discriminate Hv.
Qed.

(** ** C7: the empty collection *)

Lemma no_features_absent (data : value) :
  features_absent data -> Analysis.no_features data = Ok true.
Proof.
  intros (d & -> & Hf). unfold Analysis.no_features, contains.
  destruct (truthy (VDict d)); simpl; [|reflexivity]. now rewrite Hf.
Qed.

Lemma no_features_collection (data : value) (features : list value) :
  collection data features -> Analysis.no_features data = Ok false.
Proof.
  intros (d & -> & Hf). unfold Analysis.no_features, contains.
  assert (Ht : truthy (VDict d) = true) by (destruct d; [discriminate|reflexivity]).
  rewrite Ht. simpl. now rewrite Hf.
Qed.

(** C7, amended: when [features] is the empty array, both scripts count 0
    and return magnitude 0 and location (None, None), the analysis script
    with None for the record, and [analyze_earthquakes] returns; when the
    [features] field is absent, [earthquake_analysis.py] counts 0, its
    [get_maximum] returns the pair of 0 and (None, None), with no third
    component, and [analyze_earthquakes] returns, and
    [earthquakes_completed.py] raises [KeyError]. *)
Theorem empty_collection_summary
  (fromtimestamp : Q -> result value) (average : list value -> result value)
  (data : value) :
  empty_collection data ->
  Analysis.count_earthquakes data = Ok 0%nat /\
  outcome (Analysis.analyze_earthquakes fromtimestamp average data) = Ok tt /\
  (collection data [] ->
     Analysis.get_maximum data = Ok (VTuple [vzero; none_pair; VNone]) /\
     Completed.count_earthquakes data = Ok 0%nat /\
     Completed.get_maximum data = Ok (VTuple [vzero; none_pair])) /\
  (features_absent data ->
     Analysis.get_maximum data = Ok (VTuple [vzero; none_pair]) /\
     Completed.count_earthquakes data = Raise KeyError /\
     Completed.get_maximum data = Raise KeyError).
Proof.
  intro Hempty. repeat split.
  - destruct Hempty as [Hcol | (d & -> & Hf)].
    + now rewrite (count_collection data [] Hcol).
    + unfold Analysis.count_earthquakes, contains.
      destruct (truthy (VDict d)); simpl; [|reflexivity]. now rewrite Hf.
  - unfold Analysis.analyze_earthquakes.
    destruct Hempty as [Hcol | Habs].
    + rewrite (no_features_collection data [] Hcol).
      rewrite (count_collection data [] Hcol). reflexivity.
    + rewrite (no_features_absent data Habs). reflexivity.
  - now rewrite (Scan.get_maximum_collection data [] H).
  - destruct H as (d & -> & Hf).
    unfold Completed.count_earthquakes, getitem. now rewrite Hf.
  - destruct H as (d & -> & Hf).
    unfold Completed.get_maximum, getitem. now rewrite Hf.
  - unfold Analysis.get_maximum. now rewrite (no_features_absent data H).
  - destruct H as (d & -> & Hf).
    unfold Completed.count_earthquakes, getitem. now rewrite Hf.
  - destruct H as (d & -> & Hf).
    unfold Completed.get_maximum, getitem. now rewrite Hf.
Qed.

Lemma empty_collection_summary_witness :
  Analysis.count_earthquakes (geojson []) = Ok 0%nat /\
  Analysis.get_maximum (geojson []) = Ok (VTuple [vzero; none_pair; VNone]) /\
  Analysis.get_maximum (VDict []) = Ok (VTuple [vzero; none_pair]).
Proof.
  destruct (empty_collection_summary any_time exact_average (geojson []))
    as (Hcount & _ & Hzero & _).
  - left. apply collection_geojson.
  - destruct (empty_collection_summary any_time exact_average (VDict []))
      as (_ & _ & _ & Habsent).
    + right. exists []. split; reflexivity.
    + split; [exact Hcount|]. split.
      * apply Hzero, collection_geojson.
      * apply Habsent. exists []. split; reflexivity.
Defined.

(** C7 as the specification states it fails on
    [earthquakes_completed.py]: without a [features] field its count and
    its search raise. *)
Lemma completed_features_absent_counterexample :
  Completed.count_earthquakes (VDict []) = Raise KeyError /\
  Completed.get_maximum (VDict []) = Raise KeyError /\
  ~ empty_summary Completed.count_earthquakes Completed.get_maximum.
Proof.
  split; [reflexivity|]. split; [reflexivity|].
  intro H. destruct (H (VDict [])) as [Hcount _].
  - right. exists []. split; reflexivity.
  - discriminate Hcount.
Qed.

(** ** C9: a response that is not 200 *)

(** C9, amended: on a response whose status is not 200,
    [earthquake_analysis.py] prints the failure with the status and
    returns None, and its [main] prints that it exits and returns with
    nothing analysed; [earthquakes_completed.py] does not read the
    status: it returns what [json.loads] makes of the body, and raises
    when, and only when, the body is not JSON, an exception its program
    does not catch. *)
Theorem non_200_response
  (fromtimestamp : Q -> result value) (average : list value -> result value)
  (response : Completed.response) :
  Completed.status_code response <> 200%Z ->
  Analysis.get_data (Ok response) =
    ([Print "Fetching earthquake data from USGS..." [];
      Print "Failed to retrieve data, status code: {}"
        [VNum (inject_Z (Completed.status_code response))]],
     Ok VNone) /\
  Analysis.main fromtimestamp average (Ok response) =
    ([Print "UK Earthquake Data Analysis" [];
      Print Analysis.rule [];
      Print "Fetching earthquake data from USGS..." [];
      Print "Failed to retrieve data, status code: {}"
        [VNum (inject_Z (Completed.status_code response))];
      Print "Unable to retrieve data, exiting program" []],
     Ok tt) /\
  Completed.get_data (Ok response) = Completed.json_loads (Completed.text response) /\
  (raises (Completed.get_data (Ok response)) <->
   exists s, Completed.text response = Completed.Malformed s) /\
  (forall s, Completed.text response = Completed.Malformed s ->
     Completed.main (Ok response) =
     ([Print "Fetching earthquake data..." []], Raise JSONDecodeError)).
Proof.
  intro Hstatus.
  assert (Hneq : (Completed.status_code response =? 200)%Z = false)
    by now apply Z.eqb_neq.
  assert (Hget : Analysis.get_data (Ok response) =
    ([Print "Fetching earthquake data from USGS..." [];
      Print "Failed to retrieve data, status code: {}"
        [VNum (inject_Z (Completed.status_code response))]],
     Ok VNone)).
  { unfold Analysis.get_data. simpl. rewrite Hneq. reflexivity. }
  split; [exact Hget|]. split.
  - unfold Analysis.main. rewrite Hget. reflexivity.
  - split; [reflexivity|].
    unfold Completed.main, Completed.get_data, raises. simpl.
    destruct (Completed.text response) as [v|s]; simpl; repeat split.
    + intros [e He]. discriminate He.
    + intros [s Hs]. discriminate Hs.
    + intros s Hs. discriminate Hs.
    + eauto.
    + eauto.
Qed.

Lemma non_200_response_witness :
  outcome (Analysis.main any_time exact_average (Ok not_found)) = Ok tt /\
  outcome (Analysis.get_data (Ok not_found)) = Ok VNone.
Proof.
  destruct (non_200_response any_time exact_average not_found)
    as (Hget & Hmain & _).
  - discriminate.
  - rewrite Hget, Hmain. split; reflexivity.
Defined.

(** C9 as the specification states it fails on
    [earthquakes_completed.py]: a 404 response whose body is a JSON
    document is returned as data. *)
Lemma status_ignored_counterexample :
  Completed.get_data (Ok not_found) = Ok (geojson []) /\
  ~ failure_propagates.
Proof.
  split; [reflexivity|].
  intro H. destruct (H not_found) as [e He].
  - discriminate.
  - discriminate He.
Qed.

(** ** C10: the timestamp 0 *)

(** C10: when the [time] of a record is absent or is the number 0,
    [get_time] returns None; when it is a number that is not 0, [get_time]
    returns what [datetime.fromtimestamp] makes of that number of
    milliseconds, divided by 1000. *)
Theorem get_time_zero_is_missing
  (fromtimestamp : Q -> result value) (e : value) :
  well_formed e = true ->
  (lookup2 "properties" "time" e = None ->
     Analysis.get_time fromtimestamp e = Ok VNone) /\
  (forall ms, lookup2 "properties" "time" e = Some (VNum ms) -> ms == 0 ->
     Analysis.get_time fromtimestamp e = Ok VNone) /\
  (forall ms, lookup2 "properties" "time" e = Some (VNum ms) -> ~ ms == 0 ->
     Analysis.get_time fromtimestamp e = fromtimestamp (ms / 1000)).
Proof.
  intro Hwf. split; [now apply get_time_absent|].
  destruct e as [| | | | | |d|]; try discriminate.
  unfold Analysis.get_time, lookup2, get.
  destruct (dict_get "properties" d) as [[| | | | | |p|]|]; simpl;
    split; intros ms Hms Hz; try discriminate.
  - rewrite Hms. simpl. apply Qnonzero_false in Hz. now rewrite Hz.
  - rewrite Hms. simpl. apply Qnonzero_true in Hz. now rewrite Hz.
Qed.

Lemma get_time_zero_is_missing_witness :
  Analysis.get_time any_time (quake (VNum 2) []) = any_time (946684800000 / 1000) /\
  Analysis.get_time any_time (VDict [("properties", VDict [("time", VNum 0)])])
  = Ok VNone.
Proof.
  split.
  - destruct (get_time_zero_is_missing any_time (quake (VNum 2) []) eq_refl)
      as (_ & _ & H).
    apply (H 946684800000); [reflexivity | discriminate].
  - destruct (get_time_zero_is_missing any_time
                (VDict [("properties", VDict [("time", VNum 0)])]) eq_refl)
      as (_ & H & _).
    apply (H 0); reflexivity.
Defined.

(** ** C3: the five strongest *)

Module Ranking.
Import Analysis.

Lemma sort_key_value (e : value) :
  well_formed e = true ->
  exists k, sort_key e = Ok k /\ to_num k = Some (key_num e).
Proof.
  intro Hwf. unfold sort_key, key_num.
  rewrite (get_magnitude_raw e Hwf). simpl.
  destruct (raw_mag_cases e Hwf) as [[-> _] | [(q & -> & _) | [-> _]]]; simpl.
  - eexists; split; reflexivity.
  - destruct (Qnonzero q); eexists; split; reflexivity.
  - eexists; split; reflexivity.
Qed.

Lemma decorate_keyed (features : list value) :
  Forall (fun e => well_formed e = true) features ->
  bind (decorate features) numeric_keys = Ok (map keyed features).
Proof.
  induction 1 as [|e rest He _ IH]; simpl; [reflexivity|].
  destruct (sort_key_value e He) as (k & -> & Hk). simpl.
  destruct (decorate rest) as [kl|]; simpl in *; [|discriminate].
  rewrite Hk, IH. reflexivity.
Qed.

Lemma insert_desc_perm (kx : Q * value) (l : list (Q * value)) :
  Permutation (insert_desc kx l) (kx :: l).
Proof.
  induction l as [|ky l IH]; simpl; [reflexivity|].
  destruct (Qle_bool (fst ky) (fst kx)); [reflexivity|].
  rewrite IH. apply perm_swap.
Qed.

Lemma sort_desc_perm (l : list (Q * value)) : Permutation (sort_desc l) l.
Proof.
  induction l as [|kx l IH]; simpl; [reflexivity|].
  rewrite insert_desc_perm. now apply perm_skip.
Qed.

Lemma insert_desc_sorted (kx : Q * value) (l : list (Q * value)) :
  StronglySorted by_key_desc l -> StronglySorted by_key_desc (insert_desc kx l).
Proof.
  induction 1 as [|ky l Hs IH Hall]; simpl.
  - repeat constructor.
  - destruct (Qle_bool (fst ky) (fst kx)) eqn:Hle.
    + apply Qle_bool_iff in Hle.
      constructor; [now constructor|].
      constructor; [exact Hle|].
      rewrite Forall_forall in *. intros z Hz. specialize (Hall z Hz).
      unfold by_key_desc in *. lra.
    + constructor; [exact IH|].
      assert (Hlt : fst kx < fst ky).
      { apply Qnot_le_lt. intro H. apply Qle_bool_iff in H. congruence. }
      rewrite (insert_desc_perm kx l). constructor; [|exact Hall].
      unfold by_key_desc. lra.
Qed.

Lemma sort_desc_sorted (l : list (Q * value)) :
  StronglySorted by_key_desc (sort_desc l).
Proof.
  induction l as [|kx l IH]; simpl; [constructor|].
  now apply insert_desc_sorted.
Qed.

(** Undecorating a list whose keys are the keys of its elements. *)
Lemma undecorate_sorted (l : list (Q * value)) :
  Forall (fun p => fst p = key_num (snd p)) l ->
  StronglySorted by_key_desc l ->
  StronglySorted (fun a b => key_num b <= key_num a) (map snd l).
Proof.
  intros Hkeys Hs. induction Hs as [|p l Hs IH Hall]; simpl; [constructor|].
  inversion Hkeys as [|? ? Hp Hrest]; subst.
  constructor; [now apply IH|].
  rewrite Forall_forall in *. intros b Hb.
  apply in_map_iff in Hb as (pb & <- & Hin).
  specialize (Hall pb Hin). unfold by_key_desc in Hall.
  rewrite <- Hp, <- (Hrest pb Hin). exact Hall.
Qed.

Lemma firstn_sorted {A} (R : A -> A -> Prop) (n : nat) (l : list A) :
  StronglySorted R l -> StronglySorted R (firstn n l).
Proof.
  intro Hs. revert n. induction Hs as [|a l Hs IH Hall]; intros [|n]; simpl;
    try constructor.
  - apply IH.
  - rewrite Forall_forall in *. intros b Hb. apply Hall.
    rewrite <- (firstn_skipn n l). apply in_or_app. now left.
Qed.

Lemma sorted_by_magnitude_keyed (features : list value) :
  Forall (fun e => well_formed e = true) features ->
  sorted_by_magnitude features = Ok (map snd (sort_desc (map keyed features))).
Proof.
  intro Hwf. unfold sorted_by_magnitude.
  pose proof (decorate_keyed features Hwf) as H.
  destruct (decorate features) as [kl|]; simpl in *; [|discriminate].
  now rewrite H.
Qed.

(** The comparison of [get_maximum] has a number on its right, and the
    scan that returns has met numbers only among the magnitudes that are
    true: the keys of the sort that follows are numbers. *)
Lemma step_numeric (st st' : scan) (e : value) :
  to_num (max_magnitude st) <> None ->
  step st e = Ok st' ->
  to_num (max_magnitude st') <> None /\
  exists k, sort_key e = Ok k /\ to_num k <> None.
Proof.
  intros Hnum. unfold step, sort_key.
  destruct (get_magnitude e) as [m|]; simpl; [|discriminate].
  destruct (truthy m) eqn:Ht.
  - destruct (to_num (max_magnitude st)) as [y|] eqn:Hy; [|congruence].
    assert (Hm : gt m (max_magnitude st) <> Raise TypeError -> to_num m <> None).
    { unfold gt. rewrite Hy. destruct (to_num m); [discriminate|].
      destruct m; try congruence.
      destruct (max_magnitude st); try congruence; discriminate. }
    destruct (gt m (max_magnitude st)) as [larger|x] eqn:Hgt; simpl.
    + assert (Hm' : to_num m <> None) by (apply Hm; discriminate).
      destruct larger.
      * destruct (get_location e); simpl; [|discriminate].
        intro H. injection H as <-. simpl. split; eauto.
      * intro H. injection H as <-. rewrite Hy. split; [discriminate|eauto].
    + discriminate.
  - intro H. injection H as <-. split; [assumption|].
    exists vzero. split; [reflexivity|discriminate].
Qed.

Lemma scan_max_numeric (features : list value) :
  forall st st',
    to_num (max_magnitude st) <> None ->
    loop st features = Ok st' ->
    to_num (max_magnitude st') <> None.
Proof.
  induction features as [|e rest IH]; intros st st' Hnum; simpl.
  - intro H. now injection H as <-.
  - destruct (step st e) as [st1|] eqn:Hstep; simpl; [|discriminate].
    apply IH. now destruct (step_numeric st st1 e Hnum Hstep).
Qed.

Lemma loop_ok_keys (features : list value) :
  forall st st',
    to_num (max_magnitude st) <> None ->
    loop st features = Ok st' ->
    exists sorted_earthquakes, sorted_by_magnitude features = Ok sorted_earthquakes.
Proof.
  assert (H : forall st st', to_num (max_magnitude st) <> None ->
            loop st features = Ok st' ->
            exists ql, bind (decorate features) numeric_keys = Ok ql).
  { induction features as [|e rest IH]; intros st st' Hnum; simpl.
    - eauto.
    - destruct (step st e) as [st1|] eqn:Hstep; simpl; [|discriminate].
      destruct (step_numeric st st1 e Hnum Hstep) as (Hnum1 & k & -> & Hk).
      intro Hloop. destruct (IH st1 st' Hnum1 Hloop) as [ql Hql]. simpl.
      destruct (decorate rest) as [kl|]; simpl in *; [|discriminate].
      destruct (to_num k); [|congruence]. rewrite Hql. simpl. eauto. }
  intros st st' Hnum Hloop. destruct (H st st' Hnum Hloop) as [ql Hql].
  unfold sorted_by_magnitude.
  destruct (decorate features) as [kl|]; simpl in *; [|discriminate].
  rewrite Hql. simpl. eauto.
Qed.

End Ranking.

Lemma key_num_sort_key_of (e : value) : key_num e == sort_key_of e.
Proof.
  unfold key_num, sort_key_of, magnitude_of, raw_mag.
  destruct (lookup2 "properties" "mag" e) as [[]|]; simpl; try reflexivity.
  destruct (Qnonzero q) eqn:Hq; [reflexivity|].
  apply Qnonzero_false in Hq. now symmetry.
Qed.

Lemma descending_key_num (l : list value) :
  StronglySorted (fun a b => key_num b <= key_num a) l ->
  descending l.
Proof.
  induction 1 as [|a l Hs IH Hall]; constructor; [exact IH|].
  rewrite Forall_forall in *. intros b Hb. specialize (Hall b Hb).
  now rewrite <- !key_num_sort_key_of.
Qed.

(** *** What a report prints *)

Module Trace.
Import Analysis.

Lemma top5_lines_app (t1 t2 : list out) :
  top5_lines (t1 ++ t2) = top5_lines t1 ++ top5_lines t2.
Proof. apply filter_app. Qed.

Lemma statistics_no_entry
  (average : list value -> result value) (magnitudes : list value) :
  top5_lines (trace (report_statistics average magnitudes)) = [].
Proof.
  unfold report_statistics.
  destruct (bind (py_min magnitudes) fmt_f) as [lo|]; [|reflexivity].
  destruct (bind (py_max magnitudes) fmt_f) as [hi|]; [|reflexivity].
  destruct (average magnitudes) as [avg|]; reflexivity.
Qed.

Lemma top5_lines_skip (o : out) (t : list out) :
  is_entry o = false -> top5_lines (o :: t) = top5_lines t.
Proof. intro H. unfold top5_lines. simpl. now rewrite H. Qed.


End Trace.

(** *** The report of records that carry every field *)

Lemma reportable_fields (e : value) :
  reportable e = true ->
  exists q lon lat rest,
    lookup2 "properties" "mag" e = Some (VNum q) /\
    lookup2 "geometry" "coordinates" e
    = Some (VList (VNum lon :: VNum lat :: rest)) /\
    in_float_range q = true /\
    in_float_range lon = true /\
    in_float_range lat = true.
Proof.
  unfold reportable.
  destruct (lookup2 "properties" "mag" e) as [[]|]; try discriminate.
  destruct (lookup2 "geometry" "coordinates" e)
    as [[| | | |[|[] [|[] rest]]| | |]|]; try discriminate.
  intro H. apply andb_true_iff in H as [H Hlat].
  apply andb_true_iff in H as [Hq Hlon].
  eexists _, _, _, _. split; [reflexivity|]. split; [reflexivity|]. auto.
Qed.

Lemma reportable_complete (e : value) :
  reportable e = true -> complete e = true.
Proof.
  intro H.
  destruct (reportable_fields e H) as (q & lon & lat & rest & Hm & Hc & _).
  unfold complete. now rewrite Hm, Hc.
Qed.

Lemma reportable_well_formed (e : value) :
  reportable e = true -> well_formed e = true.
Proof. intro H. now apply Agree.complete_well_formed, reportable_complete. Qed.

Lemma reportable_location (e : value) :
  reportable e = true ->
  exists lon lat,
    Analysis.get_location e = Ok (vpair (VNum lat) (VNum lon)) /\
    in_float_range lat = true /\
    in_float_range lon = true.
Proof.
  intro H.
  destruct (reportable_fields e H)
    as (q & lon & lat & rest & Hm & Hc & _ & Hlon & Hlat).
  exists lon, lat. split; [|split; assumption].
  clear - Hc. revert Hc. unfold lookup2, Analysis.get_location, get.
  destruct e as [| | | | | |d|]; try discriminate.
  destruct (dict_get "geometry" d) as [[| | | | | |g|]|]; try discriminate.
  simpl. now intros ->.
Qed.

Lemma reportable_raw_mag (e : value) :
  reportable e = true -> printable (raw_mag e) = true.
Proof.
  intro H.
  destruct (reportable_fields e H) as (q & lon & lat & rest & Hm & Hc & Hq & _).
  unfold raw_mag. now rewrite Hm.
Qed.

Module Listing.
Import Analysis.

Lemma min_from_printable (l : list value) :
  Forall (fun v => printable v = true) l ->
  forall cur, printable cur = true ->
  exists r, min_from cur l = Ok r /\ printable r = true.
Proof.
  induction 1 as [|x l Hx _ IH]; intros cur Hcur; simpl; [eauto|].
  destruct cur; try discriminate Hcur. destruct x; try discriminate Hx.
  unfold gt. simpl. destruct (Qgtb q q0); apply IH; assumption.
Qed.

Lemma max_from_printable (l : list value) :
  Forall (fun v => printable v = true) l ->
  forall cur, printable cur = true ->
  exists r, max_from cur l = Ok r /\ printable r = true.
Proof.
  induction 1 as [|x l Hx _ IH]; intros cur Hcur; simpl; [eauto|].
  destruct cur; try discriminate Hcur. destruct x; try discriminate Hx.
  unfold gt. simpl. destruct (Qgtb q0 q); apply IH; assumption.
Qed.

Lemma fmt_f_printable (v : value) : printable v = true -> fmt_f v = Ok v.
Proof.
  destruct v; intro H; try discriminate H. simpl in *. now rewrite H.
Qed.

(** The statistics of numbers within the range of [float] are printed,
    when the average is computed. *)
Lemma report_statistics_printable
  (average : list value -> result value) (magnitudes : list value) :
  Forall (fun v => printable v = true) magnitudes ->
  magnitudes <> [] ->
  (exists avg, average magnitudes = Ok avg) ->
  exists lines, report_statistics average magnitudes = (lines, Ok tt).
Proof.
  intros Hnum Hne [avg Havg]. destruct magnitudes as [|m0 ms]; [congruence|].
  inversion Hnum as [|? ? Hm0 Hms]; subst.
  destruct (min_from_printable ms Hms m0 Hm0) as (lo & Hlo & Hlo').
  destruct (max_from_printable ms Hms m0 Hm0) as (hi & Hhi & Hhi').
  unfold report_statistics, py_min, py_max.
  rewrite Hlo, Hhi, Havg. cbn [bind].
  rewrite (fmt_f_printable lo Hlo'), (fmt_f_printable hi Hhi').
  eexists. reflexivity.
Qed.

Section Entries.

Variable fromtimestamp : Q -> result value.

Lemma report_entry_listable (i : nat) (e : value) :
  listable fromtimestamp e ->
  exists place time,
    report_entry fromtimestamp i e =
    ([Print entry_template [vnat (i + 1); raw_mag e; place; time]], Ok tt).
Proof.
  intros [Hrep [t Ht]].
  pose proof (reportable_well_formed e Hrep) as Hwf.
  destruct (reportable_location e Hrep) as (lon & lat & Hloc & _).
  destruct (get_place_name_total e Hwf) as (place & Hplace & _).
  exists place, t. unfold report_entry.
  rewrite (get_magnitude_raw e Hwf), Hloc, Hplace, Ht.
  cbn [lift mbind]. rewrite (fmt_f_printable _ (reportable_raw_mag e Hrep)).
  reflexivity.
Qed.

Lemma report_entries_listable (l : list value) :
  Forall (listable fromtimestamp) l ->
  forall i, exists lines,
    report_entries fromtimestamp i l = (lines, Ok tt) /\
    top5_lines lines = lines /\
    map shown_magnitude lines = map raw_mag l.
Proof.
  induction 1 as [|e l He _ IH]; intro i; simpl.
  - exists []. repeat split.
  - destruct (report_entry_listable i e He) as (place & time & ->).
    destruct (IH (S i)) as (lines & -> & Htop & Hshown).
    eexists. split; [reflexivity|]. split.
    + unfold top5_lines in *. simpl. now rewrite Htop.
    + simpl. now rewrite Hshown.
Qed.

End Entries.

End Listing.

Lemma top5_of_sorted (features : list value) :
  Forall (fun e => well_formed e = true) features ->
  exists sorted_earthquakes first5,
    Analysis.sorted_by_magnitude features = Ok sorted_earthquakes /\
    Permutation sorted_earthquakes features /\
    descending sorted_earthquakes /\
    Analysis.top5 features = Ok first5 /\
    first5 = firstn 5 sorted_earthquakes /\
    List.length first5 = Nat.min 5 (List.length features) /\
    descending first5.
Proof.
  intro Hwf.
  pose proof (Ranking.sorted_by_magnitude_keyed features Hwf) as Hsorted.
  set (ql := Analysis.sort_desc (map keyed features)) in *.
  assert (Hperm : Permutation (map snd ql) features).
  { unfold ql. rewrite (Ranking.sort_desc_perm (map keyed features)).
    rewrite map_map. simpl. now rewrite map_id. }
  assert (Hdesc : descending (map snd ql)).
  { apply descending_key_num, Ranking.undecorate_sorted.
    - unfold ql.
      rewrite (Ranking.sort_desc_perm (map keyed features)).
      apply Forall_forall. intros p Hp.
      apply in_map_iff in Hp as (e & <- & _). reflexivity.
    - apply Ranking.sort_desc_sorted. }
  exists (map snd ql), (firstn 5 (map snd ql)). repeat split; auto.
  - unfold Analysis.top5. now rewrite Hsorted.
  - rewrite length_firstn. now rewrite (Permutation_length Hperm).
  - now apply Ranking.firstn_sorted.
Qed.

(** The statistics of records that carry a number for magnitude. *)
Lemma statistic_values_num (features : list value) :
  Forall (fun e => reportable e = true) features ->
  statistic_values features = map raw_mag features /\
  Forall (fun v => printable v = true) (map raw_mag features).
Proof.
  induction 1 as [|e l He _ [IH1 IH2]]; simpl; [split; [reflexivity|constructor]|].
  pose proof (reportable_raw_mag e He) as Hnum.
  unfold statistic_values in *. simpl.
  destruct (raw_mag e); try discriminate. simpl. rewrite IH1.
  split; [reflexivity|]. constructor; [exact Hnum|exact IH2].
Qed.

(** What [analyze_earthquakes] prints of the strongest earthquake and
    of the first five. *)
Lemma report_strongest_listable
  (fromtimestamp : Q -> result value) (data : value) (features first5 : list value)
  (m : value) (lat lon : Q) (e : value) :
  collection data features ->
  Analysis.top5 features = Ok first5 ->
  in_float_range lat = true ->
  in_float_range lon = true ->
  listable fromtimestamp e ->
  Forall (listable fromtimestamp) first5 ->
  exists lines,
    Analysis.report_strongest fromtimestamp data m
      (vpair (VNum lat) (VNum lon)) e = (lines, Ok tt) /\
    map shown_magnitude (top5_lines lines) = map raw_mag first5.
Proof.
  intros (d & -> & Hf) Htop Hlat Hlon [Hrep [t Ht]] Hlist.
  destruct (get_place_name_total e (reportable_well_formed e Hrep))
    as (place & Hplace & _).
  destruct (Listing.report_entries_listable fromtimestamp first5 Hlist 0%nat)
    as (lines & Hlines & Hall & Hshown).
  unfold Analysis.report_strongest, getitem. rewrite Hf, Hplace, Ht.
  cbn [bind iter getindex vpair nth_error Analysis.fmt_f].
  rewrite Hlat, Hlon, Htop.
  cbn [lift mbind print app]. rewrite Hlines.
  cbn [lift mbind print app].
  eexists. split; [reflexivity|].
  rewrite !Trace.top5_lines_skip by reflexivity.
  rewrite ?app_nil_r. now rewrite Hall.
Qed.

(** The whole report: its lines of the list show the magnitudes of
    [sorted_earthquakes[:5]], in this order. *)
Lemma report_lists_top5
  (fromtimestamp : Q -> result value) (average : list value -> result value)
  (data : value) (features : list value) :
  collection data features ->
  Forall (listable fromtimestamp) features ->
  Exists positive_magnitude features ->
  average_returns average features ->
  exists first5,
    Analysis.top5 features = Ok first5 /\
    outcome (Analysis.analyze_earthquakes fromtimestamp average data) = Ok tt /\
    map shown_magnitude
      (top5_lines
         (trace (Analysis.analyze_earthquakes fromtimestamp average data)))
    = map raw_mag first5.
Proof.
  intros Hcol Hlist Hpos Havg.
  assert (Hrep : Forall (fun e => reportable e = true) features).
  { rewrite Forall_forall in *. intros e He. now destruct (Hlist e He). }
  assert (Hwf : Forall (fun e => well_formed e = true) features).
  { rewrite Forall_forall in *. intros e He.
    now apply reportable_well_formed, Hrep. }
  destruct (top5_of_sorted features Hwf)
    as (sorted & first5 & _ & Hperm & _ & Htop & Hfirst & _).
  assert (Hlist5 : Forall (listable fromtimestamp) first5).
  { rewrite Forall_forall in *. intros e He. apply Hlist.
    apply (Permutation_in _ Hperm). subst first5.
    rewrite <- (firstn_skipn 5 sorted). apply in_or_app. now left. }
  destruct (Scan.loop_invariant features Hwf [] Analysis.scan0 Scan.invariant_start)
    as (st & Hloop & c & Hmax & Hc & Hall & Hsel).
  simpl in Hall, Hsel.
  destruct Hsel as [-> | (i & e & Hi & Hm & Hcpos & He & Hloc & _)].
  { exfalso. apply Exists_exists in Hpos as (e & Hin & q & Hq & Hqpos).
    specialize (Hall e q Hin Hq). simpl in Hmax. injection Hmax as <-. lra. }
  assert (Hin : In e features) by now apply nth_error_In in Hi.
  assert (Hle : listable fromtimestamp e)
    by (rewrite Forall_forall in Hlist; now apply Hlist).
  destruct (reportable_location e (proj1 Hle)) as (lon & lat & Hloc' & Hlat & Hlon).
  rewrite Hloc in Hloc'. injection Hloc' as Hloc'.
  destruct (report_strongest_listable fromtimestamp data features first5
              (VNum c) lat lon e Hcol Htop Hlat Hlon Hle Hlist5)
    as (lines & Hlines & Hshown).
  destruct (statistic_values_num features Hrep) as [Hvalues Hnum].
  assert (Hne : map raw_mag features <> []).
  { destruct features; [inversion Hpos | discriminate]. }
  unfold average_returns in Havg. rewrite Hvalues in Havg.
  destruct (Listing.report_statistics_printable average _ Hnum Hne Havg)
    as (slines & Hstats).
  pose proof (Trace.statistics_no_entry average (map raw_mag features)) as Hnone.
  rewrite Hstats in Hnone. cbn [trace fst] in Hnone.
  assert (Hte : truthy e = true).
  { clear - Hm. unfold magnitude_of, lookup2 in Hm.
    destruct e as [| | | | | |[|kv d]|]; try discriminate. reflexivity. }
  exists first5. split; [exact Htop|].
  assert (Hlen : (List.length features =? 0)%nat = false).
  { destruct features; [inversion Hpos | reflexivity]. }
  assert (Hmags : bind (getitem data "features")
                    (fun fs => bind (iter fs) Analysis.magnitudes_of)
                  = Ok (map raw_mag features)).
  { destruct Hcol as (d & -> & Hf). unfold getitem. rewrite Hf. simpl.
    now rewrite (magnitudes_of_values features Hwf), Hvalues. }
  assert (Htm : truthy (VList (map raw_mag features)) = true).
  { simpl. destruct (map raw_mag features); [congruence | reflexivity]. }
  unfold Analysis.analyze_earthquakes.
  rewrite (no_features_collection data features Hcol).
  rewrite (count_collection data features Hcol).
  rewrite (Scan.get_maximum_collection data features Hcol), Hloop.
  cbn [bind lift mbind print app Analysis.unpack3].
  rewrite Hlen, Hmags, Htm, Hstats, Hmax, He, Hloc', Hte, Hlines.
  cbn [outcome trace mbind mret fst snd app].
  split; [reflexivity|].
  rewrite !Trace.top5_lines_skip by reflexivity.
  rewrite Trace.top5_lines_app, Hnone. exact Hshown.
Qed.




(** ** Where the report raises

    The accessors of [earthquake_analysis.py] return defaults, and the
    lines that print them format some of these defaults as numbers. *)

(** [main] unpacks three values from the pair [get_maximum] returns for a
    document without [features]. *)
Example main_without_features_raises :
  outcome (Analysis.main any_time exact_average (Ok found_empty))
  = Raise ValueError.
Proof. reflexivity. Qed.

(** A null magnitude among the first five has no [.2f] format. *)
Example report_null_magnitude_raises :
  outcome (Analysis.analyze_earthquakes any_time exact_average (geojson with_null))
  = Raise TypeError /\
  List.length
    (top5_lines
       (trace (Analysis.analyze_earthquakes any_time exact_average
                 (geojson with_null))))
  = 1%nat.
Proof. split; reflexivity. Qed.

(** The location (None, None) of a strongest record without coordinates
    has no [.4f] format. *)
Example report_without_coordinates_raises :
  outcome (Analysis.analyze_earthquakes any_time exact_average
             (geojson without_coordinates))
  = Raise TypeError.
Proof. reflexivity. Qed.

(** The ends of the range of [float]: the [int] 2^1024 - 2^970 - 1 rounds
    to the largest [float], the next one does not convert. *)
Example float_range_ends :
  in_float_range (inject_Z (float_limit - 1)) = true /\
  in_float_range (inject_Z float_limit) = false /\
  in_float_range (inject_Z (- float_limit)) = false.
Proof. vm_compute. repeat split. Qed.

(** A magnitude that is an [int] beyond the range of [float] has no
    [.2f] format either: the line of the range raises. *)
Example report_huge_magnitude_raises :
  outcome (Analysis.analyze_earthquakes any_time exact_average
             (geojson [quake (VNum (inject_Z (10 ^ 309))) [VNum (-3); VNum 55]]))
  = Raise OverflowError.
Proof. vm_compute. reflexivity. Qed.

(** * Further properties *)

(** ** The statistics of [analyze_earthquakes] *)

Module Statistics.
Import Analysis.

Lemma min_from_nums (l : list Q) (cur : Q) :
  min_from (VNum cur) (map VNum l) = Ok (VNum (qmin_from cur l)).
Proof.
  revert cur. induction l as [|x l IH]; intro cur; simpl; [reflexivity|].
  unfold gt. simpl. destruct (Qgtb cur x); apply IH.
Qed.

Lemma max_from_nums (l : list Q) (cur : Q) :
  max_from (VNum cur) (map VNum l) = Ok (VNum (qmax_from cur l)).
Proof.
  revert cur. induction l as [|x l IH]; intro cur; simpl; [reflexivity|].
  unfold gt. simpl. destruct (Qgtb x cur); apply IH.
Qed.

Lemma qmin_from_least (l : list Q) (cur : Q) :
  In (qmin_from cur l) (cur :: l) /\
  qmin_from cur l <= cur /\
  forall x, In x l -> qmin_from cur l <= x.
Proof.
  revert cur. induction l as [|x l IH]; intro cur; simpl.
  - repeat split; auto; try lra. intros x [].
  - destruct (Qgtb cur x) eqn:Hgt.
    + apply Qgtb_true in Hgt. destruct (IH x) as (Hin & Hle & Hall).
      repeat split.
      * destruct Hin as [<- | Hin]; auto.
      * lra.
      * intros y [<- | Hy]; auto.
    + apply Qgtb_false in Hgt. destruct (IH cur) as (Hin & Hle & Hall).
      repeat split.
      * destruct Hin as [<- | Hin]; auto.
      * exact Hle.
      * intros y [<- | Hy]; [lra | auto].
Qed.

Lemma qmax_from_greatest (l : list Q) (cur : Q) :
  In (qmax_from cur l) (cur :: l) /\
  cur <= qmax_from cur l /\
  forall x, In x l -> x <= qmax_from cur l.
Proof.
  revert cur. induction l as [|x l IH]; intro cur; simpl.
  - repeat split; auto; try lra. intros x [].
  - destruct (Qgtb x cur) eqn:Hgt.
    + apply Qgtb_true in Hgt. destruct (IH x) as (Hin & Hle & Hall).
      repeat split.
      * destruct Hin as [<- | Hin]; auto.
      * lra.
      * intros y [<- | Hy]; auto.
    + apply Qgtb_false in Hgt. destruct (IH cur) as (Hin & Hle & Hall).
      repeat split.
      * destruct Hin as [<- | Hin]; auto.
      * exact Hle.
      * intros y [<- | Hy]; [lra | auto].
Qed.

(** The magnitudes of the statistics are numbers: the magnitudes the
    records carry, and 0 for a record without [mag]. *)
Lemma statistic_values_nums (features : list value) :
  Forall (fun e => well_formed e = true) features ->
  exists qs,
    statistic_values features = map VNum qs /\
    (forall q, In q qs ->
       q = 0 \/ exists e, In e features /\ magnitude_of e = Some q) /\
    (forall e q, In e features -> magnitude_of e = Some q -> In q qs).
Proof.
  induction 1 as [|e rest He _ (qs & Hqs & Hfrom & Hto)].
  - exists []. repeat split; intros; contradiction.
  - unfold statistic_values in *. simpl.
    destruct (raw_mag_cases e He) as [[Hraw Hl] | [(q & Hraw & Hq) | [Hraw Hl]]];
      rewrite Hraw; simpl.
    + exists qs. repeat split; auto.
      * intros q Hin. destruct (Hfrom q Hin) as [-> | (e' & He' & Hq')]; eauto.
      * intros e' q [<- | Hin] Hq'; eauto.
        unfold magnitude_of in Hq'. rewrite Hl in Hq'. discriminate.
    + exists (q :: qs). rewrite Hqs. repeat split; auto.
      * intros q' [<- | Hin]; [right; eauto|].
        destruct (Hfrom q' Hin) as [-> | (e' & He' & Hq')]; eauto.
      * intros e' q' [<- | Hin] Hq'; [|right; eauto].
        rewrite Hq in Hq'. injection Hq' as <-. now left.
    + exists (0 :: qs). rewrite Hqs. repeat split; auto.
      * intros q' [<- | Hin]; [now left|].
        destruct (Hfrom q' Hin) as [-> | (e' & He' & Hq')]; eauto.
      * intros e' q' [<- | Hin] Hq'; [|right; eauto].
        unfold magnitude_of in Hq'. rewrite Hl in Hq'. discriminate.
Qed.

(** The line of the range: printed with the least and the greatest
    magnitude when both have the [.2f] format. *)
Lemma report_statistics_range
  (average : list value -> result value) (q : Q) (qs : list Q) :
  in_float_range (qmin_from q qs) = true ->
  in_float_range (qmax_from q qs) = true ->
  In (Print "Magnitude range: {:.2f} - {:.2f}"
        [VNum (qmin_from q qs); VNum (qmax_from q qs)])
     (trace (report_statistics average (map VNum (q :: qs)))).
Proof.
  intros Hlo Hhi. unfold report_statistics, py_min, py_max. cbn [map].
  rewrite min_from_nums, max_from_nums. cbn [bind fmt_f]. rewrite Hlo, Hhi.
  cbn [lift mbind print app].
  destruct (average (VNum q :: map VNum qs)); cbn; tauto.
Qed.

Lemma report_statistics_overflow
  (average : list value -> result value) (q : Q) (qs : list Q) :
  in_float_range (qmin_from q qs) = false \/
  in_float_range (qmax_from q qs) = false ->
  outcome (report_statistics average (map VNum (q :: qs))) = Raise OverflowError.
Proof.
  intro H. unfold report_statistics, py_min, py_max. cbn [map].
  rewrite min_from_nums, max_from_nums. cbn [bind fmt_f].
  destruct (in_float_range (qmin_from q qs)) eqn:Hlo; [|reflexivity].
  destruct H as [H | H]; [discriminate|]. rewrite H. reflexivity.
Qed.

End Statistics.

(** X1: the magnitudes [analyze_earthquakes] collects from well-formed
    records are numbers; the least and the greatest of them, which [min]
    and [max] return, are among the magnitudes, and every magnitude lies
    between the two.  The report prints the range with these two ends
    when both are within the range of [float], and raises
    [OverflowError] at this line when one of them is not. *)
Theorem range_is_least_and_greatest
  (average : list value -> result value) (features : list value) :
  Forall (fun e => well_formed e = true) features ->
  exists qs,
    Analysis.magnitudes_of features = Ok (map VNum qs) /\
    (qs <> [] ->
     exists lo hi,
       Analysis.py_min (map VNum qs) = Ok (VNum lo) /\
       Analysis.py_max (map VNum qs) = Ok (VNum hi) /\
       In lo qs /\ In hi qs /\
       (forall q, In q qs -> lo <= q <= hi) /\
       (in_float_range lo = true -> in_float_range hi = true ->
        In (Print "Magnitude range: {:.2f} - {:.2f}" [VNum lo; VNum hi])
           (trace (Analysis.report_statistics average (map VNum qs)))) /\
       (in_float_range lo = false \/ in_float_range hi = false ->
        outcome (Analysis.report_statistics average (map VNum qs))
        = Raise OverflowError)).
Proof.
  intro Hwf.
  destruct (Statistics.statistic_values_nums features Hwf) as (qs & Hqs & _).
  exists qs. split.
  - now rewrite (magnitudes_of_values features Hwf), Hqs.
  - destruct qs as [|q qs]; [congruence|]. intros _.
    destruct (Statistics.qmin_from_least qs q) as (Hmin & Hminle & Hminall).
    destruct (Statistics.qmax_from_greatest qs q) as (Hmax & Hmaxle & Hmaxall).
    exists (qmin_from q qs), (qmax_from q qs).
    split; [apply Statistics.min_from_nums|].
    split; [apply Statistics.max_from_nums|].
    split; [exact Hmin|]. split; [exact Hmax|]. split; [|split].
    + intros x [<- | Hx]; split; auto.
    + apply Statistics.report_statistics_range.
    + apply Statistics.report_statistics_overflow.
Qed.

Lemma range_is_least_and_greatest_witness :
  In (Print "Magnitude range: {:.2f} - {:.2f}" [VNum 3.1; VNum 5.2])
     (trace (Analysis.report_statistics exact_average
               (map VNum [4.5; 5.2; 3.1]))).
Proof.
  destruct (range_is_least_and_greatest exact_average scenario)
    as (qs & Hqs & Hrange).
  - repeat constructor.
  - assert (E : Analysis.magnitudes_of scenario = Ok (map VNum [4.5; 5.2; 3.1]))
      by reflexivity.
    rewrite E in Hqs. injection Hqs as Hqs.
    assert (Eqs : qs = [4.5; 5.2; 3.1]).
    { destruct qs as [|a [|b [|c [|d qs]]]]; try discriminate.
      injection Hqs as -> -> ->. reflexivity. }
    subst qs.
    destruct Hrange as (lo & hi & Hlo & Hhi & _ & _ & _ & Hprint & _);
      [discriminate|].
    injection Hlo as <-. injection Hhi as <-.
    apply Hprint; reflexivity.
Defined.

(** X3: when a record has a magnitude above 0, the upper end of the
    printed range is the magnitude [get_maximum] returns. *)
Theorem range_top_is_strongest (data : value) (features : list value) :
  collection data features ->
  Forall (fun e => well_formed e = true) features ->
  Exists positive_magnitude features ->
  exists qs hi m loc e,
    Analysis.magnitudes_of features = Ok (map VNum qs) /\
    Analysis.py_max (map VNum qs) = Ok (VNum hi) /\
    Analysis.get_maximum data = Ok (VTuple [VNum m; loc; e]) /\
    hi == m.
Proof.
  intros Hcol Hwf Hpos.
  destruct (Statistics.statistic_values_nums features Hwf) as (qs & Hqs & Hfrom & Hto).
  destruct (Scan.loop_invariant features Hwf [] Analysis.scan0 Scan.invariant_start)
    as (st & Hloop & c & Hmax & Hc & Hall & Hsel).
  simpl in Hall, Hsel.
  destruct Hsel as [-> | (i & e & Hi & Hm & Hcpos & He & Hloc & _)].
  { exfalso. apply Exists_exists in Hpos as (e & Hin & q & Hq & Hqpos).
    specialize (Hall e q Hin Hq). simpl in Hmax. injection Hmax as <-. lra. }
  assert (Hinc : In c qs) by (apply (Hto e); [now apply nth_error_In in Hi | exact Hm]).
  destruct qs as [|q qs]; [contradiction|].
  destruct (Statistics.qmax_from_greatest qs q) as (Hin & Hle & Hgreatest).
  exists (q :: qs), (qmax_from q qs), c, (Analysis.max_location st), e.
  split; [now rewrite (magnitudes_of_values features Hwf), Hqs|].
  split; [apply Statistics.max_from_nums|].
  split.
  - rewrite (Scan.get_maximum_collection data features Hcol), Hloop.
    simpl. now rewrite Hmax, He.
  - apply Qle_antisym.
    + destruct (Hfrom _ Hin) as [-> | (e' & He' & Hq')]; [lra | eauto].
    + destruct Hinc as [<- | Hinc]; auto.
Qed.

Lemma range_top_is_strongest_witness :
  exists qs hi m loc e,
    Analysis.magnitudes_of scenario = Ok (map VNum qs) /\
    Analysis.py_max (map VNum qs) = Ok (VNum hi) /\
    Analysis.get_maximum (geojson scenario) = Ok (VTuple [VNum m; loc; e]) /\
    hi == m.
Proof.
  apply (range_top_is_strongest (geojson scenario) scenario).
  - apply collection_geojson.
  - repeat constructor.
  - apply Exists_cons_hd. exists 4.5. split; reflexivity.
Defined.

(** ** The order of records of equal magnitude *)

Module Stable.
Import Analysis.

Lemma insert_desc_filter (k : Q) (kx : Q * value) (l : list (Q * value)) :
  filter (fst_is k) (insert_desc kx l) = filter (fst_is k) (kx :: l).
Proof.
  induction l as [|ky l IH]; [reflexivity|]. cbn [insert_desc].
  destruct (Qle_bool (fst ky) (fst kx)) eqn:Hle; [reflexivity|].
  cbn [filter] in *. rewrite IH.
  destruct (fst_is k ky) eqn:Hy; destruct (fst_is k kx) eqn:Hx; try reflexivity.
  exfalso. unfold fst_is in *.
  apply Qeq_bool_iff in Hx, Hy.
  assert (H : fst ky <= fst kx) by (rewrite Hx, Hy; apply Qle_refl).
  apply Qle_bool_iff in H. congruence.
Qed.

Lemma sort_desc_filter (k : Q) (l : list (Q * value)) :
  filter (fst_is k) (sort_desc l) = filter (fst_is k) l.
Proof.
  induction l as [|kx l IH]; [reflexivity|]. cbn [sort_desc fold_right].
  fold (sort_desc l). rewrite insert_desc_filter. cbn [filter]. now rewrite IH.
Qed.

Lemma filter_snd (k : Q) (l : list (Q * value)) :
  Forall (fun p => fst p = key_num (snd p)) l ->
  filter (has_key k) (map snd l) = map snd (filter (fst_is k) l).
Proof.
  induction 1 as [|p l Hp _ IH]; [reflexivity|]. cbn [map filter].
  unfold has_key at 1, fst_is at 1. rewrite <- Hp.
  destruct (Qeq_bool (fst p) k); cbn [map]; now rewrite IH.
Qed.

Lemma keyed_keys (features : list value) :
  Forall (fun p => fst p = key_num (snd p)) (map keyed features).
Proof.
  apply Forall_forall. intros p Hp.
  apply in_map_iff in Hp as (e & <- & _). reflexivity.
Qed.

(** The sort keeps the records of one key in the order of the
    collection. *)
Lemma sorted_stable (features : list value) (k : Q) :
  filter (has_key k) (map snd (sort_desc (map keyed features)))
  = filter (has_key k) features.
Proof.
  rewrite filter_snd.
  - rewrite sort_desc_filter, <- filter_snd by apply keyed_keys.
    rewrite map_map. simpl. now rewrite map_id.
  - rewrite (Ranking.sort_desc_perm (map keyed features)). apply keyed_keys.
Qed.

End Stable.

(** X4: the sort of the report is stable: the records of one sort key
    stand in the sorted list in the order they have in the collection. *)
Theorem sort_keeps_order_of_ties (features : list value) :
  Forall (fun e => well_formed e = true) features ->
  exists sorted_earthquakes,
    Analysis.sorted_by_magnitude features = Ok sorted_earthquakes /\
    forall k, filter (has_key k) sorted_earthquakes = filter (has_key k) features.
Proof.
  intro Hwf. eexists. split.
  - apply (Ranking.sorted_by_magnitude_keyed features Hwf).
  - intro k. apply Stable.sorted_stable.
Qed.

Lemma sort_keeps_order_of_ties_witness :
  exists sorted_earthquakes,
    Analysis.sorted_by_magnitude six = Ok sorted_earthquakes /\
    filter (has_key 4.7) sorted_earthquakes
    = [quake (VNum 4.7) []; quake (VNum 4.7) [VNum (-2); VNum 56]].
Proof.
  destruct (sort_keeps_order_of_ties six) as (s & Hs & Hk).
  - repeat constructor.
  - exists s. split; [exact Hs|]. rewrite (Hk 4.7). reflexivity.
Defined.

Lemma filter_none {A} (f : A -> bool) (l : list A) :
  (forall x, In x l -> f x = false) -> filter f l = [].
Proof.
  induction l as [|x l IH]; intro H; [reflexivity|]. simpl.
  rewrite (H x) by now left. apply IH. intros y Hy. apply H. now right.
Qed.

Lemma key_num_le (e : value) (c : Q) :
  0 <= c ->
  (forall q, magnitude_of e = Some q -> q <= c) ->
  key_num e <= c.
Proof.
  intros Hc Hq. rewrite (key_num_sort_key_of e). unfold sort_key_of.
  destruct (magnitude_of e) as [q|]; auto.
Qed.

Lemma key_num_positive (e : value) (c : Q) :
  magnitude_of e = Some c -> 0 < c -> key_num e = c.
Proof.
  unfold magnitude_of, key_num, raw_mag.
  destruct (lookup2 "properties" "mag" e) as [[]|]; try discriminate.
  intros H Hc. injection H as ->.
  assert (Hnz : Qnonzero c = true) by (apply Qnonzero_true; lra).
  now rewrite Hnz.
Qed.

(** X5: when a record has a magnitude above 0, the first record of the
    sorted list, the one the report lists as number 1, is the record
    [get_maximum] returns. *)
Theorem first_listed_is_strongest (data : value) (features : list value) :
  collection data features ->
  Forall (fun e => well_formed e = true) features ->
  Exists positive_magnitude features ->
  exists e rest m loc,
    Analysis.sorted_by_magnitude features = Ok (e :: rest) /\
    Analysis.top5 features = Ok (e :: firstn 4 rest) /\
    Analysis.get_maximum data = Ok (VTuple [VNum m; loc; e]).
Proof.
  intros Hcol Hwf Hpos.
  destruct (Scan.loop_invariant features Hwf [] Analysis.scan0 Scan.invariant_start)
    as (st & Hloop & c & Hmax & Hc & Hall & Hsel).
  simpl in Hall, Hsel.
  destruct Hsel as [-> | (i & e & Hi & Hm & Hcpos & He & Hloc & Hfirst)].
  { exfalso. apply Exists_exists in Hpos as (e & Hin & q & Hq & Hqpos).
    specialize (Hall e q Hin Hq). simpl in Hmax. injection Hmax as <-. lra. }
  pose proof (Ranking.sorted_by_magnitude_keyed features Hwf) as Hsorted.
  pose proof (Stable.sorted_stable features c) as Hstable.
  set (sorted := map snd (Analysis.sort_desc (map keyed features))) in *.
  assert (Hperm : Permutation sorted features).
  { unfold sorted. rewrite (Ranking.sort_desc_perm (map keyed features)).
    rewrite map_map. simpl. now rewrite map_id. }
  assert (Hdesc : StronglySorted (fun a b => key_num b <= key_num a) sorted).
  { apply Ranking.undecorate_sorted; [|apply Ranking.sort_desc_sorted].
    rewrite (Ranking.sort_desc_perm (map keyed features)). apply Stable.keyed_keys. }
  assert (Hine : In e features) by now apply nth_error_In in Hi.
  assert (Hke : key_num e = c) by now apply key_num_positive.
  assert (Hbound : forall e', In e' features -> key_num e' <= c).
  { intros e' He'. apply key_num_le; [exact Hc | eauto]. }
  destruct (nth_error_split features i Hi) as (l1 & l2 & Hsplit & Hlen).
  assert (Hl1 : filter (has_key c) l1 = []).
  { apply filter_none. intros e' He'.
    destruct (In_nth_error l1 e' He') as [j Hj].
    assert (Hji : (j < i)%nat) by (rewrite <- Hlen; apply nth_error_Some; congruence).
    assert (Hj' : nth_error features j = Some e').
    { rewrite Hsplit, nth_error_app1; [exact Hj | lia]. }
    unfold has_key. destruct (Qeq_bool (key_num e') c) eqn:Heq; [|reflexivity].
    exfalso. apply Qeq_bool_iff in Heq.
    rewrite (key_num_sort_key_of e') in Heq. unfold sort_key_of in Heq.
    destruct (magnitude_of e') as [q|] eqn:Hq.
    - specialize (Hfirst j e' q Hji Hj' Hq). lra.
    - lra. }
  assert (Hfilter : filter (has_key c) features = e :: filter (has_key c) l2).
  { rewrite Hsplit, filter_app, Hl1. cbn [app filter]. unfold has_key at 1.
    rewrite Hke. now rewrite (proj2 (Qeq_bool_iff c c) (Qeq_refl c)). }
  destruct sorted as [|h rest] eqn:Hs.
  { exfalso. apply Permutation_nil in Hperm.
    rewrite Hperm in Hine. contradiction. }
  pose proof (StronglySorted_inv Hdesc) as [_ Hhead].
  assert (Hkh : key_num h == c).
  { apply Qle_antisym.
    - apply Hbound, (Permutation_in _ Hperm). now left.
    - assert (Hin : In e (h :: rest))
        by (apply (Permutation_in _ (Permutation_sym Hperm)), Hine).
      destruct Hin as [<- | Hin]; [rewrite Hke; apply Qle_refl|].
      rewrite Forall_forall in Hhead. rewrite <- Hke. now apply Hhead. }
  assert (Hh : h = e).
  { cbn [filter] in Hstable. unfold has_key at 1 in Hstable.
    rewrite (proj2 (Qeq_bool_iff _ _) Hkh), Hfilter in Hstable.
    now injection Hstable. }
  subst h. exists e, rest, c, (Analysis.max_location st).
  split; [exact Hsorted|]. split.
  - unfold Analysis.top5. rewrite Hsorted. reflexivity.
  - rewrite (Scan.get_maximum_collection data features Hcol), Hloop.
    simpl. now rewrite Hmax, He.
Qed.

Lemma first_listed_is_strongest_witness :
  exists e rest m loc,
    Analysis.sorted_by_magnitude six = Ok (e :: rest) /\
    Analysis.top5 six = Ok (e :: firstn 4 rest) /\
    Analysis.get_maximum (geojson six) = Ok (VTuple [VNum m; loc; e]).
Proof.
  apply (first_listed_is_strongest (geojson six) six).
  - apply collection_geojson.
  - repeat constructor.
  - apply Exists_cons_hd. exists 2.1. split; reflexivity.
Defined.

(** ** The scan over a longer collection *)

Lemma loop_app (l1 l2 : list value) (st : Analysis.scan) :
  Analysis.loop st (l1 ++ l2) =
  bind (Analysis.loop st l1) (fun st' => Analysis.loop st' l2).
Proof.
  revert st. induction l1 as [|e l1 IH]; intro st; simpl; [reflexivity|].
  destruct (Analysis.step st e) as [st1|]; simpl; [apply IH | reflexivity].
Qed.

(** X6: records appended to a collection never lower the magnitude
    [get_maximum] returns, and when they do not raise it, [get_maximum]
    returns what it returned without them: the earlier record stays. *)
Theorem appended_records_never_lower (data1 data2 : value) (l1 l2 : list value) :
  collection data1 l1 ->
  collection data2 (l1 ++ l2) ->
  Forall (fun e => well_formed e = true) (l1 ++ l2) ->
  exists m1 loc1 e1 m2 loc2 e2,
    Analysis.get_maximum data1 = Ok (VTuple [VNum m1; loc1; e1]) /\
    Analysis.get_maximum data2 = Ok (VTuple [VNum m2; loc2; e2]) /\
    0 <= m1 <= m2 /\
    (m2 <= m1 -> Analysis.get_maximum data2 = Analysis.get_maximum data1).
Proof.
  intros Hcol1 Hcol2 Hwf.
  assert (Hwf1 : Forall (fun e => well_formed e = true) l1)
    by (apply Forall_app in Hwf; tauto).
  assert (Hwf2 : Forall (fun e => well_formed e = true) l2)
    by (apply Forall_app in Hwf; tauto).
  destruct (Scan.loop_invariant l1 Hwf1 [] Analysis.scan0 Scan.invariant_start)
    as (st1 & Hloop1 & Hinv1).
  simpl in Hinv1.
  destruct (Scan.loop_invariant l2 Hwf2 l1 st1 Hinv1) as (st2 & Hloop2 & Hinv2).
  assert (Hloop : Analysis.loop Analysis.scan0 (l1 ++ l2) = Ok st2)
    by (rewrite loop_app, Hloop1; exact Hloop2).
  destruct Hinv1 as (c1 & Hmax1 & Hc1 & Hall1 & Hsel1).
  destruct Hinv2 as (c2 & Hmax2 & Hc2 & Hall2 & Hsel2).
  exists c1, (Analysis.max_location st1), (Analysis.max_earthquake st1),
         c2, (Analysis.max_location st2), (Analysis.max_earthquake st2).
  rewrite (Scan.get_maximum_collection data1 l1 Hcol1), Hloop1.
  rewrite (Scan.get_maximum_collection data2 (l1 ++ l2) Hcol2), Hloop.
  cbn [bind]. rewrite Hmax1, Hmax2.
  split; [reflexivity|]. split; [reflexivity|].
  assert (Hle : c1 <= c2).
  { destruct Hsel1 as [-> | (i & e & Hi & Hm & _)].
    - simpl in Hmax1. injection Hmax1 as <-. exact Hc2.
    - apply (Hall2 e); [|exact Hm].
      apply in_or_app. left. now apply nth_error_In in Hi. }
  split; [split; assumption|].
  intro Hge.
  destruct Hsel2 as [-> | (i2 & e2 & Hi2 & Hm2 & Hpos2 & He2 & Hloc2 & Hfirst2)].
  - simpl in Hmax2. injection Hmax2 as <-.
    destruct Hsel1 as [-> | (i1 & e1 & _ & _ & Hpos1 & _)]; [|lra].
    simpl in Hmax1. injection Hmax1 as <-. reflexivity.
  - destruct Hsel1 as [-> | (i1 & e1 & Hi1 & Hm1 & Hpos1 & He1 & Hloc1 & Hfirst1)].
    { simpl in Hmax1. injection Hmax1 as <-. lra. }
    assert (Hlen1 : (i1 < List.length l1)%nat)
      by (apply nth_error_Some; congruence).
    assert (Hi1' : nth_error (l1 ++ l2) i1 = Some e1)
      by (rewrite nth_error_app1; assumption).
    assert (Hi : i2 = i1).
    { destruct (Nat.lt_trichotomy i2 i1) as [Hlt | [Heq | Hgt]]; [|exact Heq|].
      - exfalso. assert (Hi2' : nth_error l1 i2 = Some e2)
          by (rewrite <- Hi2, nth_error_app1; [reflexivity | lia]).
        specialize (Hfirst1 i2 e2 c2 Hlt Hi2' Hm2). lra.
      - exfalso. specialize (Hfirst2 i1 e1 c1 Hgt Hi1' Hm1). lra. }
    subst i2. rewrite Hi1' in Hi2. injection Hi2 as <-.
    rewrite Hm1 in Hm2. injection Hm2 as <-.
    rewrite Hloc1 in Hloc2. injection Hloc2 as Hloc.
    now rewrite He1, He2, Hloc.
Qed.

Lemma appended_records_never_lower_witness :
  Analysis.get_maximum (geojson (scenario ++ silent))
  = Analysis.get_maximum (geojson scenario).
Proof.
  destruct (appended_records_never_lower (geojson scenario)
              (geojson (scenario ++ silent)) scenario silent)
    as (m1 & loc1 & e1 & m2 & loc2 & e2 & H1 & H2 & _ & Heq).
  - apply collection_geojson.
  - apply collection_geojson.
  - repeat constructor.
  - apply Heq.
    assert (E1 : Analysis.get_maximum (geojson scenario)
                 = Ok (VTuple [VNum 5.2; vpair (VNum 53) (VNum (-1));
                               quake (VNum 5.2) [VNum (-1); VNum 53; VNum 5]]))
      by reflexivity.
    assert (E2 : Analysis.get_maximum (geojson (scenario ++ silent))
                 = Ok (VTuple [VNum 5.2; vpair (VNum 53) (VNum (-1));
                               quake (VNum 5.2) [VNum (-1); VNum 53; VNum 5]]))
      by reflexivity.
    rewrite E1 in H1. rewrite E2 in H2.
    injection H1 as <- _ _. injection H2 as <- _ _. apply Qle_refl.
Defined.

(** ** Fields of the wrong size or type *)

(** X7: on [coordinates] of fewer than two elements [get_location] of
    [earthquake_analysis.py] returns (None, None), and [get_location] of
    [earthquakes_completed.py] raises [IndexError]. *)
Theorem short_coordinates (e : value) (l : list value) :
  lookup2 "geometry" "coordinates" e = Some (VList l) ->
  (List.length l < 2)%nat ->
  Analysis.get_location e = Ok none_pair /\
  Completed.get_location e = Raise IndexError.
Proof.
  unfold lookup2. destruct e as [| | | | | |d|]; try discriminate.
  destruct (dict_get "geometry" d) as [[| | | | | |g|]|] eqn:Hg; try discriminate.
  intros Hc Hlen.
  unfold Analysis.get_location, Completed.get_location, get, getitem.
  rewrite Hg. simpl. rewrite Hc. simpl.
  destruct l as [|a [|b l]]; simpl in *; try lia; split; reflexivity.
Qed.

Lemma short_coordinates_witness :
  Analysis.get_location (quake (VNum 2) [VNum (-3)]) = Ok none_pair /\
  Completed.get_location (quake (VNum 2) [VNum (-3)]) = Raise IndexError.
Proof.
  apply (short_coordinates (quake (VNum 2) [VNum (-3)]) [VNum (-3)]).
  - reflexivity.
  - simpl. lia.
Defined.

Lemma get_magnitude_not_dict (d : list (string * value)) (v : value) :
  dict_get "properties" d = Some v -> is_dict v = false ->
  Analysis.get_magnitude (VDict d) = Raise AttributeError.
Proof.
  intros Hp Hv. unfold Analysis.get_magnitude, get. rewrite Hp.
  destruct v; try reflexivity. discriminate.
Qed.

(** X8: the defaults of the accessors of [earthquake_analysis.py] cover
    a field that is absent, not a [properties] that is there with a value
    that is no dict, such as null: then the three accessors that read
    [properties] raise [AttributeError], and [get_magnitude] of
    [earthquakes_completed.py] raises [TypeError]. *)
Theorem properties_not_dict
  (fromtimestamp : Q -> result value) (d : list (string * value)) (v : value) :
  dict_get "properties" d = Some v ->
  is_dict v = false ->
  Analysis.get_magnitude (VDict d) = Raise AttributeError /\
  Analysis.get_place_name (VDict d) = Raise AttributeError /\
  Analysis.get_time fromtimestamp (VDict d) = Raise AttributeError /\
  Completed.get_magnitude (VDict d) = Raise TypeError.
Proof.
  intros Hp Hv. split; [now apply (get_magnitude_not_dict d v)|].
  unfold Analysis.get_place_name, Analysis.get_time, Completed.get_magnitude,
    get, getitem.
  rewrite Hp. destruct v; try discriminate; repeat split; reflexivity.
Qed.

Lemma properties_not_dict_witness :
  Analysis.get_magnitude (VDict [("properties", VNone)]) = Raise AttributeError.
Proof.
  destruct (properties_not_dict any_time [("properties", VNone)] VNone)
    as (H & _); [reflexivity | reflexivity | exact H].
Defined.

(** X9: one record whose [properties] is no dict makes the whole search
    fail: [get_maximum] raises [AttributeError] when it comes to that
    record, whatever the magnitudes of the other records. *)
Theorem search_fails_on_broken_record
  (data : value) (pre post : list value) (d : list (string * value)) (v : value) :
  collection data (pre ++ VDict d :: post) ->
  Forall (fun e => well_formed e = true) pre ->
  dict_get "properties" d = Some v ->
  is_dict v = false ->
  Analysis.get_maximum data = Raise AttributeError.
Proof.
  intros Hcol Hwf Hp Hv.
  rewrite (Scan.get_maximum_collection data _ Hcol), loop_app.
  destruct (Scan.loop_invariant pre Hwf [] Analysis.scan0 Scan.invariant_start)
    as (st & -> & _).
  cbn [bind Analysis.loop]. unfold Analysis.step.
  now rewrite (get_magnitude_not_dict d v Hp Hv).
Qed.

Lemma search_fails_on_broken_record_witness :
  Analysis.get_maximum
    (geojson (scenario ++ VDict [("properties", VNone)] :: silent))
  = Raise AttributeError.
Proof.
  apply (search_fails_on_broken_record _ scenario silent [("properties", VNone)] VNone).
  - apply collection_geojson.
  - repeat constructor.
  - reflexivity.
  - reflexivity.
Defined.

(** ** The programs *)

Module Run.
Import Analysis.

Lemma outcome_mbind {A B} (m : M A) (k : A -> M B) :
  outcome (mbind m k) =
  match outcome m with Ok a => outcome (k a) | Raise x => Raise x end.
Proof.
  destruct m as [o [a|x]]; simpl; [|reflexivity]. now destruct (k a).
Qed.

Lemma trace_mbind {A B} (m : M A) (k : A -> M B) :
  trace (mbind m k) =
  trace m ++ match outcome m with Ok a => trace (k a) | Raise _ => [] end.
Proof.
  destruct m as [o [a|x]]; simpl.
  - now destruct (k a).
  - now rewrite app_nil_r.
Qed.

Lemma explore_first_returns (e : value) :
  well_formed e = true -> outcome (explore_first e) = Ok tt.
Proof.
  destruct e as [| | | | | |d|]; try discriminate. simpl. intro H.
  apply andb_true_iff in H as [Hp Hg].
  unfold explore_first, get.
  destruct (dict_get "properties" d) as [[| | | | | |p|]|]; try discriminate;
    destruct (dict_get "geometry" d) as [[| | | | | |g|]|]; try discriminate;
    reflexivity.
Qed.

Lemma explore_collection (data : value) (features : list value) :
  collection data features ->
  (forall e, hd_error features = Some e -> well_formed e = true) ->
  outcome (explore_data_structure data) = Ok tt /\
  In (Print "Number of earthquake events: {}" [vnat (List.length features)])
     (trace (explore_data_structure data)).
Proof.
  intros (d & -> & Hf) Hhd.
  unfold explore_data_structure, keys, contains, getitem. rewrite Hf.
  assert (Hfirst : forall e rest, features = e :: rest ->
            outcome (explore_first e) = Ok tt).
  { intros e rest ->. apply explore_first_returns, Hhd. reflexivity. }
  destruct (dict_get "metadata" d) as [metadata|];
    cbn [bind len lift mbind print mret app getindex];
    (destruct features as [|e rest];
     [ split; [reflexivity | cbn; tauto]
     | cbn [List.length Nat.ltb Nat.leb nth_error];
       specialize (Hfirst e rest eq_refl);
       destruct (explore_first e) as [lines r];
       cbn [outcome snd] in Hfirst; subst r;
       split; [reflexivity | cbn; tauto] ]).
Qed.

End Run.

(** X10: on a collection whose first record, if there is one, is
    well-formed, [explore_data_structure] returns, and the number of
    events it prints is the number of records, the number
    [count_earthquakes] returns. *)
Theorem explore_prints_the_count (data : value) (features : list value) :
  collection data features ->
  (forall e, hd_error features = Some e -> well_formed e = true) ->
  outcome (Analysis.explore_data_structure data) = Ok tt /\
  Analysis.count_earthquakes data = Ok (List.length features) /\
  In (Print "Number of earthquake events: {}" [vnat (List.length features)])
     (trace (Analysis.explore_data_structure data)).
Proof.
  intros Hcol Hhd.
  destruct (Run.explore_collection data features Hcol Hhd) as [Hout Hin].
  split; [exact Hout|]. split; [|exact Hin].
  apply (count_collection data features Hcol).
Qed.

Lemma explore_prints_the_count_witness :
  outcome (Analysis.explore_data_structure (geojson scenario)) = Ok tt /\
  Analysis.count_earthquakes (geojson scenario) = Ok 3%nat.
Proof.
  destruct (explore_prints_the_count (geojson scenario) scenario)
    as (Hout & Hcount & _).
  - apply collection_geojson.
  - intros e He. injection He as <-. reflexivity.
  - split; [exact Hout | exact Hcount].
Defined.

Lemma nothing_selected_outcome
  (fromtimestamp : Q -> result value) (average : list value -> result value)
  (data : value) (features : list value) :
  collection data features ->
  Forall (fun e => reportable e = true) features ->
  (features <> [] -> average_returns average features) ->
  Analysis.loop Analysis.scan0 features = Ok Analysis.scan0 ->
  outcome (Analysis.analyze_earthquakes fromtimestamp average data) = Ok tt.
Proof.
  intros Hcol Hrep Havg Hloop.
  assert (Hwf : Forall (fun e => well_formed e = true) features).
  { revert Hrep. apply Forall_impl. apply reportable_well_formed. }
  destruct (statistic_values_num features Hrep) as [Hvalues Hnum].
  unfold Analysis.analyze_earthquakes.
  rewrite (no_features_collection data features Hcol).
  rewrite (count_collection data features Hcol).
  rewrite (Scan.get_maximum_collection data features Hcol), Hloop.
  assert (Hmags : bind (getitem data "features")
                    (fun fs => bind (iter fs) Analysis.magnitudes_of)
                  = Ok (map raw_mag features)).
  { destruct Hcol as (d & -> & Hf). unfold getitem. rewrite Hf. simpl.
    now rewrite (magnitudes_of_values features Hwf), Hvalues. }
  cbn [bind lift mbind print app Analysis.unpack3].
  rewrite Hmags.
  destruct features as [|e rest]; [reflexivity|].
  assert (Hne : map raw_mag (e :: rest) <> []) by discriminate.
  assert (Hreturns : exists avg, average (map raw_mag (e :: rest)) = Ok avg).
  { rewrite <- Hvalues. apply Havg. discriminate. }
  destruct (Listing.report_statistics_printable average _ Hnum Hne Hreturns)
    as (slines & Hstats).
  cbn [List.length Nat.eqb].
  assert (Htm : truthy (VList (map raw_mag (e :: rest))) = true) by reflexivity.
  rewrite Htm, Hstats. reflexivity.
Qed.

Lemma analyze_returns
  (fromtimestamp : Q -> result value) (average : list value -> result value)
  (data : value) (features : list value) :
  collection data features ->
  Forall (listable fromtimestamp) features ->
  (features <> [] -> average_returns average features) ->
  outcome (Analysis.analyze_earthquakes fromtimestamp average data) = Ok tt.
Proof.
  intros Hcol Hlist Havg.
  assert (Hrep : Forall (fun e => reportable e = true) features).
  { revert Hlist. apply Forall_impl. now intros e [H _]. }
  assert (Hwf : Forall (fun e => well_formed e = true) features).
  { revert Hrep. apply Forall_impl. apply reportable_well_formed. }
  destruct (Scan.loop_invariant features Hwf [] Analysis.scan0 Scan.invariant_start)
    as (st & Hloop & c & Hmax & Hc & Hall & Hsel).
  simpl in Hsel.
  destruct Hsel as [-> | (i & e & Hi & Hm & Hcpos & _)].
  - now apply (nothing_selected_outcome fromtimestamp average data features).
  - assert (Hin : In e features) by now apply nth_error_In in Hi.
    assert (Hpos : Exists positive_magnitude features).
    { apply Exists_exists. exists e. split; [exact Hin|]. exists c. auto. }
    assert (Hne : features <> []) by (intros ->; contradiction).
    now destruct (report_lists_top5 fromtimestamp average data features
                    Hcol Hlist Hpos (Havg Hne))
      as (first5 & _ & Hout & _).
Qed.

(** What [main] does after the analysis: the final results. *)
Lemma final_results_return
  (fromtimestamp : Q -> result value) (data : value) (features : list value) :
  collection data features ->
  Forall (listable fromtimestamp) features ->
  exists m loc e,
    bind (Analysis.get_maximum data) Analysis.unpack3 = Ok (m, loc, e) /\
    (truthy e = false \/
     (truthy e = true /\
      (exists place, Analysis.get_place_name e = Ok place) /\
      (exists lat lon, loc = vpair (VNum lat) (VNum lon) /\
                       in_float_range lat = true /\ in_float_range lon = true) /\
      (exists t, Analysis.get_time fromtimestamp e = Ok t))).
Proof.
  intros Hcol Hlist.
  assert (Hwf : Forall (fun e => well_formed e = true) features).
  { revert Hlist. apply Forall_impl. intros e [H _].
    now apply reportable_well_formed. }
  destruct (Scan.loop_invariant features Hwf [] Analysis.scan0 Scan.invariant_start)
    as (st & Hloop & c & Hmax & Hc & Hall & Hsel).
  simpl in Hsel.
  exists (Analysis.max_magnitude st), (Analysis.max_location st),
         (Analysis.max_earthquake st).
  split.
  - now rewrite (Scan.get_maximum_collection data features Hcol), Hloop.
  - destruct Hsel as [-> | (i & e & Hi & Hm & Hcpos & He & Hloc & _)];
      [now left | right].
    assert (Hle : listable fromtimestamp e).
    { rewrite Forall_forall in Hlist. apply Hlist.
      now apply nth_error_In in Hi. }
    destruct Hle as [Hrep Htime].
    rewrite He. split; [|split; [|split]].
    + unfold magnitude_of, lookup2 in Hm.
      destruct e as [| | | | | |[|kv d]|]; try discriminate. reflexivity.
    + destruct (get_place_name_total e (reportable_well_formed e Hrep))
        as (place & Hplace & _). eauto.
    + destruct (reportable_location e Hrep) as (lon & lat & Hloc' & Hlat & Hlon).
      rewrite Hloc in Hloc'. injection Hloc' as ->. eauto.
    + exact Htime.
Qed.

(** X11: on a response of status 200 whose body is a collection of
    records the report can print (numbers within the range of [float]
    for magnitude and for the first two coordinates, a time the clock
    library converts), [main] of [earthquake_analysis.py] runs to its
    end when the average of the magnitudes is computed: it raises
    nothing and prints its final results. *)
Theorem main_completes
  (fromtimestamp : Q -> result value) (average : list value -> result value)
  (response : Completed.response) (data : value) (features : list value) :
  Completed.status_code response = 200%Z ->
  Completed.text response = Completed.Document data ->
  collection data features ->
  Forall (listable fromtimestamp) features ->
  (features <> [] -> average_returns average features) ->
  outcome (Analysis.main fromtimestamp average (Ok response)) = Ok tt /\
  In (Print "Final Results:" [])
     (trace (Analysis.main fromtimestamp average (Ok response))).
Proof.
  intros Hstatus Htext Hcol Hlist Havg.
  assert (Hhd : forall e, hd_error features = Some e -> well_formed e = true).
  { intros e He. destruct features as [|e' rest]; [discriminate|].
    injection He as ->. inversion Hlist as [|? ? [Hrep _] _]; subst.
    now apply reportable_well_formed. }
  destruct (Run.explore_collection data features Hcol Hhd) as [Hexplore _].
  pose proof (analyze_returns fromtimestamp average data features Hcol Hlist Havg)
    as Hanalyze.
  destruct (final_results_return fromtimestamp data features Hcol Hlist)
    as (m & loc & e & Hfound & Hcases).
  assert (Hdata : is_none data = false) by (destruct Hcol as (d & -> & _); reflexivity).
  unfold Analysis.main, Analysis.get_data.
  cbn [lift mbind print mret app].
  rewrite Hstatus. cbn [Z.eqb Pos.eqb lift mbind print mret app].
  rewrite Htext. cbn [Completed.json_loads Analysis.json_loads lift mbind print mret app].
  rewrite Hdata.
  destruct (Analysis.explore_data_structure data) as [l1 r1].
  cbn [outcome snd] in Hexplore. subst r1.
  destruct (Analysis.analyze_earthquakes fromtimestamp average data) as [l2 r2].
  cbn [outcome snd] in Hanalyze. subst r2.
  rewrite Hfound. cbn [lift mbind print mret app].
  destruct Hcases
    as [-> | (-> & (place & ->) & (lat & lon & -> & Hlat & Hlon) & (t & ->))].
  - split; [reflexivity|].
    cbn [print mbind mret lift app trace fst In].
    rewrite !in_app_iff. cbn [In]. tauto.
  - cbn [print mbind mret lift app bind getindex vpair nth_error Analysis.fmt_f].
    rewrite Hlat, Hlon.
    split; [reflexivity|].
    cbn [print mbind mret lift app trace fst In bind].
    rewrite !in_app_iff. cbn [In]. tauto.
Qed.

Lemma main_completes_witness :
  outcome (Analysis.main any_time exact_average (Ok found_scenario)) = Ok tt.
Proof.
  destruct (main_completes any_time exact_average found_scenario
              (geojson scenario) scenario)
    as [H _].
  - reflexivity.
  - reflexivity.
  - apply collection_geojson.
  - repeat constructor; eexists; reflexivity.
  - intros _. eexists. reflexivity.
  - exact H.
Defined.

(** X12: on a response of status 200 whose body is the JSON null, [main]
    of [earthquake_analysis.py] takes the data for missing and exits; on
    a body that is JSON of another kind than an object, it raises
    [AttributeError] where it asks the document for its keys. *)
Theorem main_on_other_documents
  (fromtimestamp : Q -> result value) (average : list value -> result value)
  (response : Completed.response) (v : value) :
  Completed.status_code response = 200%Z ->
  Completed.text response = Completed.Document v ->
  is_dict v = false ->
  (v = VNone ->
     Analysis.main fromtimestamp average (Ok response) =
     ([Print "UK Earthquake Data Analysis" [];
       Print Analysis.rule [];
       Print "Fetching earthquake data from USGS..." [];
       Print "Data retrieved successfully!" [];
       Print "Unable to retrieve data, exiting program" []],
      Ok tt)) /\
  (v <> VNone ->
     outcome (Analysis.main fromtimestamp average (Ok response))
     = Raise AttributeError).
Proof.
  intros Hstatus Htext Hdict.
  unfold Analysis.main, Analysis.get_data.
  cbn [lift mbind print mret app].
  rewrite Hstatus. cbn [Z.eqb Pos.eqb lift mbind print mret app].
  rewrite Htext. cbn [Completed.json_loads Analysis.json_loads lift mbind print mret app].
  split.
  - intros ->. reflexivity.
  - intro Hv. destruct v; try congruence; try discriminate; reflexivity.
Qed.

Lemma main_on_other_documents_witness :
  outcome (Analysis.main any_time exact_average (Ok empty_array))
  = Raise AttributeError.
Proof.
  destruct (main_on_other_documents any_time exact_average empty_array (VList []))
    as [_ H].
  - reflexivity.
  - reflexivity.
  - reflexivity.
  - apply H. discriminate.
Defined.

(** X13: on a collection in which every record carries a magnitude that
    is a number or null and coordinates of two elements or more, the
    program of [earthquakes_completed.py] runs to its end, whatever the
    status of the response: it prints the number of records and the
    location and magnitude that [get_maximum] of
    [earthquake_analysis.py] returns. *)
Theorem completed_program_prints_the_strongest
  (response : Completed.response) (data : value) (features : list value) :
  Completed.text response = Completed.Document data ->
  collection data features ->
  Forall (fun e => complete e = true) features ->
  exists m loc e,
    Analysis.get_maximum data = Ok (VTuple [m; loc; e]) /\
    Completed.main (Ok response) =
    ([Print "Fetching earthquake data..." [];
      Print "Loaded {} earthquake events" [vnat (List.length features)];
      Print "Strongest earthquake located at {} with magnitude {}" [loc; m]],
     Ok tt).
Proof.
  intros Htext Hcol Hcomplete.
  assert (Hwf : Forall (fun e => well_formed e = true) features).
  { revert Hcomplete. apply Forall_impl. apply Agree.complete_well_formed. }
  destruct (Scan.loop_invariant features Hwf [] Analysis.scan0 Scan.invariant_start)
    as (st & Hloop & _).
  exists (Analysis.max_magnitude st), (Analysis.max_location st),
         (Analysis.max_earthquake st).
  split.
  - now rewrite (Scan.get_maximum_collection data features Hcol), Hloop.
  - unfold Completed.main, Completed.get_data. cbn [bind]. rewrite Htext.
    cbn [Completed.json_loads lift mbind print mret app].
    rewrite (Agree.get_maximum_agree data features Hcol (Agree.all_carry _ Hcomplete)).
    rewrite Hloop.
    destruct Hcol as (d & -> & Hf).
    unfold Completed.count_earthquakes, getitem. rewrite Hf. reflexivity.
Qed.

Lemma completed_program_prints_the_strongest_witness :
  Completed.main (Ok found_scenario) =
  ([Print "Fetching earthquake data..." [];
    Print "Loaded {} earthquake events" [vnat 3];
    Print "Strongest earthquake located at {} with magnitude {}"
      [vpair (VNum 53) (VNum (-1)); VNum 5.2]],
   Ok tt).
Proof.
  destruct (completed_program_prints_the_strongest found_scenario
              (geojson scenario) scenario) as (m & loc & e & Hmax & Hmain).
  - reflexivity.
  - apply collection_geojson.
  - repeat constructor.
  - rewrite Hmain.
    assert (E : Analysis.get_maximum (geojson scenario)
                = Ok (VTuple [VNum 5.2; vpair (VNum 53) (VNum (-1));
                              quake (VNum 5.2) [VNum (-1); VNum 53; VNum 5]]))
      by reflexivity.
    rewrite E in Hmax. injection Hmax as <- <- _. reflexivity.
Defined.

(** ** When the location is read *)

Lemma get_magnitude_fine (e : value) :
  properties_fine e = true ->
  Analysis.get_magnitude e = Ok (raw_mag e) /\
  (raw_mag e = VNone \/
   exists q, raw_mag e = VNum q /\
             (magnitude_of e = Some q \/ (q = 0 /\ magnitude_of e = None))).
Proof.
  destruct e as [| | | | | |d|]; try discriminate. simpl.
  unfold Analysis.get_magnitude, raw_mag, magnitude_of, lookup2, get.
  destruct (dict_get "properties" d) as [[| | | | | |p|]|]; try discriminate.
  - simpl. destruct (dict_get "mag" p) as [[| |q| | | | |]|]; try discriminate;
      intros _; (split; [reflexivity|]).
    + now left.
    + right. exists q. auto.
    + right. exists 0. auto.
  - intros _. split; [reflexivity|]. right. exists 0. auto.
Qed.

(** X14: [get_maximum] reads the location of a record only when the
    record raises the running maximum.  A last record whose magnitude is
    not above the maximum of the records before it leaves the result as
    it was, whatever its [geometry]; one whose magnitude is above it and
    whose [geometry] is no dict makes [get_maximum] raise
    [AttributeError]. *)
Theorem location_read_for_new_maximum_only
  (data1 data2 : value) (l : list value) (e : value) (m1 : Q) (loc1 e1 : value) :
  collection data1 l ->
  collection data2 (l ++ [e]) ->
  Forall (fun e => well_formed e = true) l ->
  properties_fine e = true ->
  Analysis.get_maximum data1 = Ok (VTuple [VNum m1; loc1; e1]) ->
  ((forall q, magnitude_of e = Some q -> q <= m1) ->
     Analysis.get_maximum data2 = Analysis.get_maximum data1) /\
  (forall q d g,
     magnitude_of e = Some q -> m1 < q ->
     e = VDict d -> dict_get "geometry" d = Some g -> is_dict g = false ->
     Analysis.get_maximum data2 = Raise AttributeError).
Proof.
  intros Hcol1 Hcol2 Hwf Hfine H1.
  destruct (Scan.loop_invariant l Hwf [] Analysis.scan0 Scan.invariant_start)
    as (st & Hloop & c & Hmax & Hc & _).
  rewrite (Scan.get_maximum_collection data1 l Hcol1), Hloop in H1 |- *.
  cbn [bind] in H1 |- *. injection H1 as Hm1 _ _.
  rewrite (Scan.get_maximum_collection data2 (l ++ [e]) Hcol2), loop_app, Hloop.
  cbn [bind Analysis.loop]. unfold Analysis.step.
  destruct (get_magnitude_fine e Hfine) as [-> Hraw]. cbn [bind].
  rewrite Hm1.
  split.
  - intro Hle.
    assert (Hsame : bind (Ok st) (fun st' => bind (Ok st')
              (fun st0 => Ok (VTuple [Analysis.max_magnitude st0;
                                      Analysis.max_location st0;
                                      Analysis.max_earthquake st0])))
            = Ok (VTuple [VNum m1; Analysis.max_location st;
                          Analysis.max_earthquake st]))
      by (cbn [bind]; now rewrite Hm1).
    destruct Hraw as [-> | (q & -> & [Hq | [-> Hq]])];
      [exact Hsame | | exact Hsame].
    cbn [truthy]. destruct (Qnonzero q); [|exact Hsame].
    unfold gt. cbn [to_num bind].
    assert (Hgt : Qgtb q m1 = false) by (apply Qgtb_false; auto).
    rewrite Hgt. exact Hsame.
  - intros q d g Hq Hlt -> Hg Hdict.
    assert (Hm1c : m1 = c) by congruence. subst m1.
    destruct Hraw as [Hraw | (q' & Hraw & [Hq' | [_ Hq']])];
      [ unfold magnitude_of, raw_mag in *;
        destruct (lookup2 "properties" "mag" (VDict d)) as [[]|]; discriminate
      | | congruence ].
    rewrite Hq in Hq'. injection Hq' as <-. rewrite Hraw.
    assert (Hnz : Qnonzero q = true) by (apply Qnonzero_true; lra).
    assert (Hgt : Qgtb q c = true) by (now apply Qgtb_true).
    cbn [truthy]. rewrite Hnz. unfold gt. cbn [to_num bind]. rewrite Hgt.
    unfold Analysis.get_location, get. rewrite Hg.
    destruct g; try discriminate; reflexivity.
Qed.

Lemma location_read_for_new_maximum_only_witness :
  Analysis.get_maximum (geojson (scenario ++ [no_geometry (VNum 3)]))
  = Analysis.get_maximum (geojson scenario) /\
  Analysis.get_maximum (geojson (scenario ++ [no_geometry (VNum 6)]))
  = Raise AttributeError.
Proof.
  split.
  - destruct (location_read_for_new_maximum_only (geojson scenario)
                (geojson (scenario ++ [no_geometry (VNum 3)])) scenario
                (no_geometry (VNum 3)) 5.2 (vpair (VNum 53) (VNum (-1)))
                (quake (VNum 5.2) [VNum (-1); VNum 53; VNum 5])) as [H _].
    + apply collection_geojson.
    + apply collection_geojson.
    + repeat constructor.
    + reflexivity.
    + reflexivity.
    + apply H. intros q Hq. injection Hq as <-. discriminate.
  - destruct (location_read_for_new_maximum_only (geojson scenario)
                (geojson (scenario ++ [no_geometry (VNum 6)])) scenario
                (no_geometry (VNum 6)) 5.2 (vpair (VNum 53) (VNum (-1)))
                (quake (VNum 5.2) [VNum (-1); VNum 53; VNum 5])) as [_ H].
    + apply collection_geojson.
    + apply collection_geojson.
    + repeat constructor.
    + reflexivity.
    + reflexivity.
    + apply (H 6 [("properties", VDict [("mag", VNum 6)]); ("geometry", VNone)] VNone);
        reflexivity.
Defined.
